(** * FinGenius: provider selection and research orchestration

    A shallow embedding of
    - [src/tool/data_provider/__init__.py]   (the provider selector),
    - [src/tool/data_provider/*_provider.py] (the three backends),
    - [src/tool/stock_info_request.py]       (the basic-info tool),
    - [src/environment/research.py]          (the orchestrator),
    with the properties of the specification stated over it. *)

From Stdlib Require Import String Ascii List Bool Arith Lia.
From stdpp Require Import base option gmap strings list fin_maps.

Local Open Scope string_scope.
#[local] Set Warnings "-clear-no-such-hyp".

(** ** Python preliminaries *)

(** The exception classes the sources name.  [ValueError], [RuntimeError] and
    [KeyError] are the ones raised or caught by name; every other subclass of
    [Exception] is [OtherError].  What is raised outside [Exception]
    ([KeyboardInterrupt], [asyncio.CancelledError]) is not modelled: no
    [except Exception] of the sources catches it. *)
Inductive exn_class := ValueError | RuntimeError | KeyError | OtherError.

(** An exception object: its class and what [str(e)] gives. *)
Record exn := Exn { exn_cls : exn_class; exn_str : string }.

(** The outcome of a call that may raise: of a remote API, of a
    constructor, or of a coroutine that is awaited. *)
Inductive outcome (A : Type) :=
| Returns (a : A)
| Raises (e : exn).
Arguments Returns {A} a.
Arguments Raises {A} e.

Definition obind {A B} (c : outcome A) (k : A → outcome B) : outcome B :=
  match c with
  | Returns a => k a
  | Raises e => Raises e
  end.

Notation "'let*' x := c 'in' k" := (obind c (fun x => k))
  (at level 10, x name, c at level 100, k at level 200).

(** [try: body except Exception as e: handler e] *)
Definition try_except {A} (body : outcome A) (handler : exn → A) : A :=
  match body with
  | Returns a => a
  | Raises e => handler e
  end.

(** Truthiness of an optional string setting: [None] and [''] are falsy. *)
Definition truthy (o : option string) : bool :=
  match o with
  | Some s => negb (String.eqb s "")
  | None => false
  end.

(** [s.startswith(p)] *)
Definition startswith (s p : string) : bool := String.prefix p s.

(** [s.replace(c, '')] for a one-character [c] *)
Fixpoint remove_char (c : ascii) (s : string) : string :=
  match s with
  | EmptyString => EmptyString
  | String a r => if Ascii.eqb a c then remove_char c r else String a (remove_char c r)
  end.

(** [s.split(c)[0]]: the part of [s] before the first [c] *)
Fixpoint split_head (c : ascii) (s : string) : string :=
  match s with
  | EmptyString => EmptyString
  | String a r => if Ascii.eqb a c then EmptyString else String a (split_head c r)
  end.

(** [sep.join(l)] *)
Definition join (sep : string) (l : list string) : string := String.concat sep l.

(** ** Code translation *)

(** The rule of the specification, in its own words: the market is read off
    the leading character of the canonical code. *)
Inductive market := Shanghai | Shenzhen | Beijing.

Definition market_of_leading (c : option ascii) : market :=
  match c with
  | Some "6"%char => Shanghai
  | Some "0"%char | Some "3"%char => Shenzhen
  | Some "8"%char | Some "4"%char => Beijing
  | _ => Shanghai
  end.

Definition leading (s : string) : option ascii :=
  match s with
  | EmptyString => None
  | String a _ => Some a
  end.

Definition ts_suffix (m : market) : string :=
  match m with Shanghai => ".SH" | Shenzhen => ".SZ" | Beijing => ".BJ" end.

Definition rq_suffix (m : market) : string :=
  match m with Shanghai => ".XSHG" | Shenzhen => ".XSHE" | Beijing => ".XSES" end.

(** ** DataFrames, as far as the providers look at them *)

(** A row is a dict from column name to cell; cells are kept as strings. *)
Abbreviation Row := (gmap string string).

(** An index label: a string, or an integer as in the default index. *)
Inductive label := LStr (s : string) | LInt (n : nat).

(** A frame is its rows in order, each with its index label and its cells.
    It stands for the pandas frame with these rows when all of them have the
    same columns. *)
Definition DataFrame : Type := list (label * Row).

(** [df.empty]: the frame has no row or no column, that is, no cell. *)
Definition df_empty (df : DataFrame) : bool :=
  forallb (fun lr : label * Row => bool_decide (lr.2 = ∅)) df.

(** [df.iloc[0].to_dict()] *)
Definition iloc0 (df : DataFrame) : outcome Row :=
  match df with
  | [] => Raises (Exn OtherError "single positional indexer is out-of-bounds")
  | (_, r) :: _ => Returns r
  end.

(** [row[c]]: a missing column raises [KeyError]. *)
Definition getitem (r : Row) (c : string) : outcome string :=
  match r !! c with
  | Some v => Returns v
  | None => Raises (Exn KeyError ("'" ++ c ++ "'"))
  end.

(** [df[c]]: the cells of column [c], top to bottom. *)
Fixpoint column (df : DataFrame) (c : string) : outcome (list string) :=
  match df with
  | [] => Returns []
  | (_, r) :: df' =>
      let* v := getitem r c in
      let* vs := column df' c in
      Returns (v :: vs)
  end.

(** [dict(items)]: a later item overwrites an earlier one with the same key. *)
Definition dict_of_items {V} (items : list (string * V)) : gmap string V :=
  foldl (fun d kv => <[kv.1 := kv.2]> d) ∅ items.

(** [d.update(other)] *)
Definition dict_update {V} (d other : gmap string V) : gmap string V := other ∪ d.

(** An argument that is [str] or [List[str]]; the providers normalise it with
    [if not isinstance(stock_codes, list): stock_codes = [stock_codes]]. *)
Definition as_list (stock_codes : string + list string) : list string :=
  match stock_codes with
  | inl code => [code]
  | inr codes => codes
  end.

(** ** The remote services

    Everything the sources call outside the repository, as oracles: a call
    returns or raises. *)
Record World := {
  (* akshare *)
  ak_stock_individual_info_em : string → outcome DataFrame;
  ak_stock_zh_a_hist : string → string → string → outcome DataFrame;
  ak_stock_zh_a_spot_em : string → outcome DataFrame;
  (* tushare: [ts.pro_api(token)] and the calls on the client it returns *)
  ts_pro_api : string → outcome unit;
  pro_trade_cal : string → string → string → string → outcome unit;
  pro_stock_basic : string → string → outcome DataFrame;
  pro_daily_basic : string → string → outcome DataFrame;
  pro_daily : string → string → string → string → outcome DataFrame;
  (* rqdatac *)
  rqdatac_init : string → string → outcome unit;
  rqdatac_instruments : string → outcome (option Row);
  rqdatac_get_price : string → string → string → outcome DataFrame;
  rqdatac_current_snapshot : list string → outcome DataFrame;
  (* src.tool.base *)
  get_recent_trading_day : outcome string;
}.

(** ** The provider interface (base.py) *)

Class DataProvider (P : Type) := {
  get_stock_basic_info : World → P → string → option Row;
  get_daily_market_data : World → P → string → string → string → option DataFrame;
  get_real_time_quotes : World → P → string + list string → option (gmap string Row);
}.

(** [quotes = {}; for label, row in df.iterrows(): quotes[key label row] = row.to_dict()] *)
Fixpoint quotes_by (key : label → Row → outcome string) (df : DataFrame)
    (quotes : gmap string Row) : outcome (gmap string Row) :=
  match df with
  | [] => Returns quotes
  | (label, row) :: df' =>
      let* k := key label row in
      quotes_by key df' (<[k := row]> quotes)
  end.

(** *** akshare_provider.py *)

Module Akshare.

(** [AkshareProvider] has no constructor of its own and no fields. *)
Inductive t := Make.

Definition get_stock_basic_info (w : World) (self : t) (stock_code : string)
  : option Row :=
  try_except
    (let* stock_info_df := ak_stock_individual_info_em w stock_code in
     if df_empty stock_info_df then Returns None
     else
       let* items := column stock_info_df "item" in
       let* values := column stock_info_df "value" in
       Returns (Some (dict_of_items (zip items values))))
    (fun e => None).

Definition get_daily_market_data (w : World) (self : t)
    (stock_code start_date end_date : string) : option DataFrame :=
  try_except
    (let* df := ak_stock_zh_a_hist w stock_code
                  (remove_char "-" start_date) (remove_char "-" end_date) in
     Returns (Some df))
    (fun e => None).

Definition get_real_time_quotes (w : World) (self : t)
    (stock_codes : string + list string) : option (gmap string Row) :=
  let stock_codes := as_list stock_codes in
  try_except
    (let stock_codes_str := join "," stock_codes in
     let* df := ak_stock_zh_a_spot_em w stock_codes_str in
     if df_empty df then Returns None
     else
       let* quotes := quotes_by (fun _ row => getitem row "代码") df ∅ in
       Returns (Some quotes))
    (fun e => None).

#[global] Instance provider : DataProvider t :=
  Build_DataProvider t get_stock_basic_info get_daily_market_data get_real_time_quotes.

End Akshare.

(** *** tushare_provider.py *)

Module Tushare.

(** [TushareProvider._convert_to_ts_code] *)
Definition _convert_to_ts_code (stock_code : string) : string :=
  if startswith stock_code "6" then stock_code ++ ".SH"
  else if startswith stock_code "0" || startswith stock_code "3" then stock_code ++ ".SZ"
  else if startswith stock_code "8" || startswith stock_code "4" then stock_code ++ ".BJ"
  else stock_code ++ ".SH".

(** [self.pro = ts.pro_api(token)]: the client is known by its token. *)
Record t := Make { pro : string }.

(** [TushareProvider(token=token)] *)
Definition __init__ (w : World) (token : string) : outcome t :=
  let* _ := ts_pro_api w token in
  Returns (Make token).

Definition get_stock_basic_info (w : World) (self : t) (stock_code : string)
  : option Row :=
  try_except
    (let ts_code := _convert_to_ts_code stock_code in
     let* stock_basic_df := pro_stock_basic w (pro self) ts_code in
     if df_empty stock_basic_df then Returns None
     else
       let* stock_info := iloc0 stock_basic_df in
       let* daily_basic_df := pro_daily_basic w (pro self) ts_code in
       if negb (df_empty daily_basic_df) then
         let* latest := iloc0 daily_basic_df in
         Returns (Some (dict_update stock_info latest))
       else Returns (Some stock_info))
    (fun e => None).

Definition get_daily_market_data (w : World) (self : t)
    (stock_code start_date end_date : string) : option DataFrame :=
  try_except
    (let ts_code := _convert_to_ts_code stock_code in
     let* df := pro_daily w (pro self) ts_code
                  (remove_char "-" start_date) (remove_char "-" end_date) in
     Returns (Some df))
    (fun e => None).

Definition get_real_time_quotes (w : World) (self : t)
    (stock_codes : string + list string) : option (gmap string Row) :=
  let stock_codes := as_list stock_codes in
  try_except
    (let ts_codes := map _convert_to_ts_code stock_codes in
     let ts_codes_str := join "," ts_codes in
     let* df := pro_daily_basic w (pro self) ts_codes_str in
     if df_empty df then Returns None
     else
       let* quotes :=
         quotes_by (fun _ row =>
                      let* ts_code := getitem row "ts_code" in
                      Returns (split_head "." ts_code)) df ∅ in
       Returns (Some quotes))
    (fun e => None).

#[global] Instance provider : DataProvider t :=
  Build_DataProvider t get_stock_basic_info get_daily_market_data get_real_time_quotes.

End Tushare.

(** *** rqdata_provider.py *)

Module RQData.

(** [RQDataProvider._convert_to_rq_code] *)
Definition _convert_to_rq_code (stock_code : string) : string :=
  if startswith stock_code "6" then stock_code ++ ".XSHG"
  else if startswith stock_code "0" || startswith stock_code "3" then stock_code ++ ".XSHE"
  else if startswith stock_code "8" || startswith stock_code "4" then stock_code ++ ".XSES"
  else stock_code ++ ".XSHG".

(** The provider keeps no field: [rqdatac.init] logs the module in. *)
Inductive t := Make.

(** [rq_code.split('.')[0]] on an index label: only a string has [split]. *)
Definition label_head (rq_code : label) : outcome string :=
  match rq_code with
  | LStr s => Returns (split_head "." s)
  | LInt _ => Raises (Exn OtherError "'int' object has no attribute 'split'")
  end.

(** [RQDataProvider(username=..., password=...)] *)
Definition __init__ (w : World) (username password : string) : outcome t :=
  let* _ := rqdatac_init w username password in
  Returns Make.

Definition get_stock_basic_info (w : World) (self : t) (stock_code : string)
  : option Row :=
  try_except
    (let rq_code := _convert_to_rq_code stock_code in
     let* instrument := rqdatac_instruments w rq_code in
     match instrument with
     | None => Returns None
     | Some fields => Returns (Some fields)
     end)
    (fun e => None).

Definition get_daily_market_data (w : World) (self : t)
    (stock_code start_date end_date : string) : option DataFrame :=
  try_except
    (let rq_code := _convert_to_rq_code stock_code in
     let* df := rqdatac_get_price w rq_code start_date end_date in
     Returns (Some df))
    (fun e => None).

Definition get_real_time_quotes (w : World) (self : t)
    (stock_codes : string + list string) : option (gmap string Row) :=
  let stock_codes := as_list stock_codes in
  try_except
    (let rq_codes := map _convert_to_rq_code stock_codes in
     let* snapshot_df := rqdatac_current_snapshot w rq_codes in
     if df_empty snapshot_df then Returns None
     else
       let* quotes :=
         quotes_by (fun rq_code _ => label_head rq_code) snapshot_df ∅ in
       Returns (Some quotes))
    (fun e => None).

#[global] Instance provider : DataProvider t :=
  Build_DataProvider t get_stock_basic_info get_daily_market_data get_real_time_quotes.

End RQData.

(** Any provider object; method calls on it dispatch on its class. *)
Inductive Provider :=
| TushareProvider (p : Tushare.t)
| RQDataProvider (p : RQData.t)
| AkshareProvider (p : Akshare.t).

#[global] Instance Provider_DataProvider : DataProvider Provider := {|
  get_stock_basic_info w p :=
    match p with
    | TushareProvider p => get_stock_basic_info w p
    | RQDataProvider p => get_stock_basic_info w p
    | AkshareProvider p => get_stock_basic_info w p
    end;
  get_daily_market_data w p :=
    match p with
    | TushareProvider p => get_daily_market_data w p
    | RQDataProvider p => get_daily_market_data w p
    | AkshareProvider p => get_daily_market_data w p
    end;
  get_real_time_quotes w p :=
    match p with
    | TushareProvider p => get_real_time_quotes w p
    | RQDataProvider p => get_real_time_quotes w p
    | AkshareProvider p => get_real_time_quotes w p
    end;
|}.

(** ** Process state and the selector (data_provider/__init__.py) *)

(** [config.get("data_provider_config")]: the settings the selector reads.
    [src.config] owns them; a setting that is absent is [None]. *)
Record DataProviderConfig := {
  provider : string;
  tushare_token : option string;
  rqdata_username : option string;
  rqdata_password : option string;
}.

(** The three backends, and the calls the selector makes to them. *)
Inductive Backend := tushare | rqdata | akshare.

Inductive Call :=
| TushareInit (token : string)        (* TushareProvider(token=...) *)
| TushareTradeCal (token : string)    (* provider.pro.trade_cal(...) *)
| RQDataInit (username password : string)  (* RQDataProvider(...) *)
| AkshareInit.                        (* AkshareProvider() *)

Definition backend_of (c : Call) : Backend :=
  match c with
  | TushareInit _ | TushareTradeCal _ => tushare
  | RQDataInit _ _ => rqdata
  | AkshareInit => akshare
  end.

Definition class_of (p : Provider) : Backend :=
  match p with
  | TushareProvider _ => tushare
  | RQDataProvider _ => rqdata
  | AkshareProvider _ => akshare
  end.

(** A provider object on the heap: [oid] is its identity ([id(obj)]). *)
Record Object := { oid : nat; obj : Provider }.

(** What persists in the process between calls: the module-level
    [_provider_instance] and the next free object identity.  [calls] keeps
    book of the calls made to the backends so far, oldest first; the code
    does not read it, the statements about probing do. *)
Record Process := {
  _provider_instance : option Object;
  next_oid : nat;
  calls : list Call;
}.

Definition fresh_process : Process :=
  {| _provider_instance := None; next_oid := 0; calls := [] |}.

(** Code that reads and writes the process state. *)
Definition M (A : Type) : Type := Process → A * Process.

Definition ret {A} (a : A) : M A := fun s => (a, s).
Definition bind {A B} (c : M A) (k : A → M B) : M B :=
  fun s => let (a, s') := c s in k a s'.

Notation "'do' x <- c ; k" := (bind c (fun x => k))
  (at level 10, x name, c at level 100, k at level 200).

Definition call {A} (c : Call) (r : outcome A) : M (outcome A) :=
  fun s => (r, {| _provider_instance := _provider_instance s;
                  next_oid := next_oid s;
                  calls := calls s ++ [c] |}).

Definition new (p : Provider) : M Object :=
  fun s => ({| oid := next_oid s; obj := p |},
            {| _provider_instance := _provider_instance s;
               next_oid := S (next_oid s);
               calls := calls s |}).

(** [_provider_instance = v] *)
Definition set_provider_instance (v : option Object) : M unit :=
  fun s => (tt, {| _provider_instance := v;
                   next_oid := next_oid s;
                   calls := calls s |}).

(** [a or b] on values that are an object or [None] *)
Definition por (a b : M (option Object)) : M (option Object) :=
  do x <- a;
  match x with
  | Some _ => ret x
  | None => b
  end.

Definition try_tushare (w : World) (cfg : DataProviderConfig) : M (option Object) :=
  let tushare_token := tushare_token cfg in
  if truthy tushare_token && negb (bool_decide (tushare_token = Some "invalid_token")) then
    let token := default "" tushare_token in
    do r <- call (TushareInit token) (Tushare.__init__ w token);
    match r with
    | Returns p =>
        do provider <- new (TushareProvider p);
        do r <- call (TushareTradeCal token)
                  (pro_trade_cal w (Tushare.pro p) "" "20250101" "20250101");
        match r with
        | Returns _ => ret (Some provider)
        | Raises e => ret None
        end
    | Raises e => ret None
    end
  else ret None.

Definition try_rqdata (w : World) (cfg : DataProviderConfig) : M (option Object) :=
  let rqdata_username := rqdata_username cfg in
  let rqdata_password := rqdata_password cfg in
  if truthy rqdata_username && truthy rqdata_password then
    let username := default "" rqdata_username in
    let password := default "" rqdata_password in
    do r <- call (RQDataInit username password) (RQData.__init__ w username password);
    match r with
    | Returns p =>
        do provider <- new (RQDataProvider p);
        ret (Some provider)
    | Raises e => ret None
    end
  else ret None.

Definition try_akshare : M Object :=
  do _ <- call AkshareInit (Returns tt);
  new (AkshareProvider Akshare.Make).

(** An object where an object or [None] is expected. *)
Definition some (c : M Object) : M (option Object) :=
  do x <- c; ret (Some x).

(** [_provider_instance = attempt], and the test that follows the branches:
    [if not _provider_instance: raise RuntimeError(...)]. *)
Definition finish (provider_name : string) (attempt : M (option Object))
  : M (outcome Object) :=
  do found <- attempt;
  do _ <- set_provider_instance found;
  match found with
  | None =>
      ret (Raises (Exn RuntimeError
                     ("Could not initialize data provider: " ++ provider_name)))
  | Some inst => ret (Returns inst)
  end.

(** The selector once the cache test has failed: from
    [provider_name = config.get(...).provider] to the end. *)
Definition resolve (w : World) (cfg : DataProviderConfig) : M (outcome Object) :=
  let provider_name := provider cfg in
  if String.eqb provider_name "auto" then
    finish provider_name
      (por (try_tushare w cfg) (por (try_rqdata w cfg) (some try_akshare)))
  else if String.eqb provider_name "tushare" then finish provider_name (try_tushare w cfg)
  else if String.eqb provider_name "rqdata" then finish provider_name (try_rqdata w cfg)
  else if String.eqb provider_name "akshare" then finish provider_name (some try_akshare)
  else ret (Raises (Exn ValueError ("Unknown data provider: " ++ provider_name))).

Definition get_data_provider (w : World) (cfg : DataProviderConfig) : M (outcome Object) :=
  fun s =>
    match _provider_instance s with
    | Some inst => (Returns inst, s)
    | None => resolve w cfg s
    end.

(** ** Python values that reach the result of a run *)

#[warning="-register-all"]
Inductive pyobj :=
| PyNone
| PyStr (s : string)
| PyExc (e : exn)                       (* an instance of [Exception] *)
| PyDict (d : gmap string pyobj).

(** [isinstance(v, Exception)] *)
Definition is_exception (v : pyobj) : bool :=
  match v with PyExc _ => true | _ => false end.

(** [not d] for a dict: it has no entry. *)
Definition dict_is_empty {V} (d : gmap string V) : bool := bool_decide (size d = 0).

(** ** The basic-info tool (stock_info_request.py) *)

Module StockInfoRequest.

(** [StockInfoResponse]: [output] defaults to [{}], [error] to [None]. *)
Record StockInfoResponse := {
  output : gmap string pyobj;
  error : option string;
}.

Definition failed (msg : string) : StockInfoResponse :=
  {| output := ∅; error := Some msg |}.

(** The two [except] clauses of [execute], in order. *)
Definition handle (e : exn) : StockInfoResponse :=
  match exn_cls e with
  | ValueError | RuntimeError =>
      failed ("Data provider configuration error: " ++ exn_str e)
  | _ => failed ("获取股票信息失败: " ++ exn_str e)
  end.

Definition execute (w : World) (cfg : DataProviderConfig) (stock_code : string)
  : M StockInfoResponse :=
  match get_recent_trading_day w with
  | Raises e => ret (handle e)
  | Returns trading_day =>
      do r <- get_data_provider w cfg;
      match r with
      | Raises e => ret (handle e)
      | Returns data_provider =>
          (* [data_provider is None] does not hold of an object *)
          match get_stock_basic_info w (obj data_provider) stock_code with
          | None => ret (failed "Failed to fetch stock basic info from any provider.")
          | Some basic_info =>
              ret {| output := {[ "current_trading_day" := PyStr trading_day;
                                  "basic_info" := PyDict (PyStr <$> basic_info) ]};
                     error := None |}
          end
      end
  end.

End StockInfoRequest.

(** ** The orchestrator (environment/research.py) *)

Module Research.
Import StockInfoRequest.

(** [Message.system_message(stock_info_message)]: the system message with
    the three values the f-string interpolates. *)
Record Message := system_message {
  msg_stock_code : string;
  msg_trading_day : pyobj;
  msg_basic_info : pyobj;
}.

(** A specialist.  [memory] is [None] when the object has no such
    attribute.  [agent_run] is what [await agent.run(stock_code)] gives,
    which may depend on the context the agent holds: a value, or a raised
    exception. *)
Record Agent := {
  memory : option (list Message);
  agent_run : option (list Message) → string → outcome pyobj;
}.

(** [agent.memory.add_message(m)], under [hasattr(agent, "memory")] *)
Definition add_message (m : Message) (agent : Agent) : Agent :=
  match memory agent with
  | Some msgs => {| memory := Some (msgs ++ [m])%list; agent_run := agent_run agent |}
  | None => agent
  end.

Record ResearchEnvironment := {
  analysis_mapping : list (string * string);   (* the dict's items, in order *)
  agents : gmap string Agent;
  results : gmap string pyobj;
}.

Definition default_analysis_mapping : list (string * string) :=
  [ ("sentiment_agent", "sentiment");
    ("risk_control_agent", "risk");
    ("hot_money_agent", "hot_money");
    ("technical_analysis_agent", "technical");
    ("chip_analysis_agent", "chip_analysis");
    ("big_deal_analysis_agent", "big_deal") ].

(** Modelled from the spec: [BaseEnvironment.get_agent], of a base class
    that is not among the sources.  It gives the specialist registered
    under the key, or [None]. *)
Definition get_agent (registry : gmap string Agent) (agent_key : string)
  : option Agent := registry !! agent_key.

(** The loop that seeds the context: for every key of the mapping whose
    agent exists and has a memory, append the message. *)
Definition seed_context (m : Message) (keys : list string)
    (registry : gmap string Agent) : gmap string Agent :=
  foldl (fun reg agent_key =>
           match get_agent reg agent_key with
           | Some agent => <[agent_key := add_message m agent]> reg
           | None => reg
           end) registry keys.

(** [run_with_semaphore(agent, stock_code)]: the value of the coroutine.
    The semaphore decides when it runs, not what it gives; see [Gate]. *)
Definition run_with_semaphore (agent : Agent) (stock_code : string) : outcome pyobj :=
  agent_run agent (memory agent) stock_code.

(** The loop that builds [tasks]. *)
Fixpoint dispatch (mapping : list (string * string)) (registry : gmap string Agent)
    (stock_code : string) : list (outcome pyobj) :=
  match mapping with
  | [] => []
  | (agent_key, result_key) :: mapping' =>
      match registry !! agent_key with
      | Some agent =>
          run_with_semaphore agent stock_code :: dispatch mapping' registry stock_code
      | None => dispatch mapping' registry stock_code
      end
  end.

(** [asyncio.gather] over [tasks] with [return_exceptions=True]: one result per
    task, in the order of [tasks]; a raised exception is the result. *)
Definition gather (tasks : list (outcome pyobj)) : list pyobj :=
  map (fun t => match t with Returns v => v | Raises e => PyExc e end) tasks.

(** The body of the loop over [zip(self.analysis_mapping.items(), task_results)]. *)
Definition record_result (results : gmap string pyobj)
    (item : (string * string) * pyobj) : gmap string pyobj :=
  let '((agent_key, result_key), result) := item in
  match result with
  | PyExc e => <[result_key := PyStr ("Error: " ++ exn_str e)]> results
  | _ => <[result_key := result]> results
  end.

Definition collect (mapping : list (string * string)) (task_results : list pyobj)
  : gmap string pyobj :=
  foldl record_result ∅ (zip mapping task_results).

(** [ResearchEnvironment.run].  No step of the body raises here: specialist
    faults are results of [gather], [execute] catches its own, and
    [get_agent] and [add_message] are taken to return; so the handler of the
    outer [except Exception] is not entered.  Besides the result, [run] gives
    the environment as it leaves it: contexts seeded, [results] stored. *)
Definition run (w : World) (cfg : DataProviderConfig) (self : ResearchEnvironment)
    (stock_code : string) : M (gmap string pyobj * ResearchEnvironment) :=
  do basic_info_result <- execute w cfg stock_code;
  let registry :=
    if truthy (error basic_info_result) then agents self
    else
      let stock_info_message :=
        system_message stock_code
          (default (PyStr "未知") (output basic_info_result !! "current_trading_day"))
          (default (PyStr "{}") (output basic_info_result !! "basic_info")) in
      seed_context stock_info_message (analysis_mapping self).*1 (agents self) in
  let tasks := dispatch (analysis_mapping self) registry stock_code in
  let task_results := gather tasks in
  let res := collect (analysis_mapping self) task_results in
  if dict_is_empty res then
    ret ({[ "error" := PyStr "No specialist agents completed successfully";
            "stock_code" := PyStr stock_code ]},
         {| analysis_mapping := analysis_mapping self;
            agents := registry;
            results := results self |})
  else
    let res :=
      if negb (truthy (error basic_info_result))
      then <["basic_info" := PyDict (output basic_info_result)]> res
      else res in
    let final := <["stock_code" := PyStr stock_code]> res in
    ret (final,
         {| analysis_mapping := analysis_mapping self;
            agents := registry;
            results := final |}).

End Research.

(** ** The admission gate of [run]

    [semaphore = asyncio.Semaphore(3)] and, per task,
    [async with semaphore: return await agent.run(stock_code)].
    Entering the [async with] block is [semaphore.acquire()]: the task waits
    while no slot is free, then takes one and goes on into its specialist's
    [run].  Leaving the block, by return or by exception, is
    [semaphore.release()]: the slot is given back.  Between the two the event
    loop may interleave the tasks in any order.

    [Gate] counts slots, not the semaphore's private counter: a slot that a
    release has handed to a waiting task counts as free until that task goes
    on.  [Semaphore] below has the counter and the queue of the library, and
    [Semaphore.gate_of] relates the two. *)

Module Gate.

Definition capacity : nat := 3.

Inductive phase := Waiting | Running | Settled.

Record state := {
  value : nat;             (* the free slots *)
  tasks : list phase;      (* one per dispatched task *)
}.

(** After the loop that builds [tasks], before [gather] runs any of them. *)
Definition start (n : nat) : state :=
  {| value := capacity; tasks := replicate n Waiting |}.

Inductive event :=
| Enter (i : nat)    (* task [i] acquires the semaphore and enters [agent.run] *)
| Exit (i : nat).    (* [agent.run] of task [i] is over; the slot is released *)

(** One step of the event loop.  [None]: the event cannot happen in this
    state (a task that must still wait, or that is not where the event
    says). *)

Definition fire (ev : event) (st : state) : option state :=
  match ev with
  | Enter i =>
      match tasks st !! i with
      | Some Waiting =>
          if (0 <? value st)%nat
          then Some {| value := value st - 1; tasks := <[i := Running]> (tasks st) |}
          else None
      | _ => None
      end
  | Exit i =>
      match tasks st !! i with
      | Some Running =>
          Some {| value := value st + 1; tasks := <[i := Settled]> (tasks st) |}
      | _ => None
      end
  end.

(** A schedule is a sequence of events; it is possible when each event can
    fire in turn. *)
Fixpoint play (schedule : list event) (st : state) : option state :=
  match schedule with
  | [] => Some st
  | ev :: schedule' =>
      match fire ev st with
      | Some st' => play schedule' st'
      | None => None
      end
  end.

(** The live count: tasks inside their specialist's [run]. *)
Fixpoint running (ps : list phase) : nat :=
  match ps with
  | [] => 0
  | Running :: ps' => S (running ps')
  | _ :: ps' => running ps'
  end.

Definition live (st : state) : nat := running (tasks st).

End Gate.

(** ** The semaphore as asyncio implements it

    [asyncio.Semaphore] of CPython 3.11 (asyncio/locks.py), as far as [run]
    uses it: [acquire] through [async with], [release] on leaving the block,
    and no task is cancelled.

    [acquire]:
      [if not self.locked(): self._value -= 1; return True]
      [fut = ...; self._waiters.append(fut)]
      [await fut]; [self._waiters.remove(fut)]
      [if self._value > 0: self._wake_up_next()]; [return True]
    [release]: [self._value += 1; self._wake_up_next()]
    [_wake_up_next]: for the first [fut] of [_waiters] that is not done,
      [self._value -= 1; fut.set_result(True)]. *)

Module Semaphore.

Inductive stage :=
| Created       (* the task has not started *)
| Blocked       (* in [acquire], at [await fut]; the future is pending *)
| Woken         (* at [await fut]; the future has its result *)
| Inside        (* past [acquire], in [agent.run] *)
| Finished.     (* out of the block; [release] is done *)

Record state := {
  _value : nat;
  _waiters : list nat;     (* the tasks whose futures are queued, in order *)
  stages : list stage;     (* one per dispatched task *)
}.

(** [asyncio.Semaphore(3)], and the tasks that [gather] is given. *)
Definition start (n : nat) : state :=
  {| _value := Gate.capacity; _waiters := []; stages := replicate n Created |}.

(** [self.locked()]: with no waiter cancelled, [any(not w.cancelled() ...)]
    says that there is a waiter. *)
Definition locked (st : state) : bool :=
  (_value st =? 0)%nat || match _waiters st with [] => false | _ => true end.

(** The first waiter whose future is not done. *)
Fixpoint first_blocked (stages : list stage) (waiters : list nat) : option nat :=
  match waiters with
  | [] => None
  | i :: waiters' =>
      match stages !! i with
      | Some Blocked => Some i
      | _ => first_blocked stages waiters'
      end
  end.

Definition _wake_up_next (st : state) : state :=
  match first_blocked (stages st) (_waiters st) with
  | Some i =>
      {| _value := _value st - 1;
         _waiters := _waiters st;
         stages := <[i := Woken]> (stages st) |}
  | None => st
  end.

(** [deque.remove(x)]: the first occurrence goes. *)
Fixpoint remove_first (i : nat) (l : list nat) : list nat :=
  match l with
  | [] => []
  | j :: l' => if (j =? i)%nat then l' else j :: remove_first i l'
  end.

Inductive event :=
| Start (i : nat)     (* task [i] starts and runs up to its first wait *)
| Resume (i : nat)    (* task [i], woken, goes on from [await fut] *)
| Leave (i : nat).    (* [agent.run] of task [i] is over: [release] *)

(** One step of the event loop; [None] when the task is not at that point. *)
Definition fire (ev : event) (st : state) : option state :=
  match ev with
  | Start i =>
      match stages st !! i with
      | Some Created =>
          if locked st
          then Some {| _value := _value st;
                       _waiters := (_waiters st ++ [i])%list;
                       stages := <[i := Blocked]> (stages st) |}
          else Some {| _value := _value st - 1;
                       _waiters := _waiters st;
                       stages := <[i := Inside]> (stages st) |}
      | _ => None
      end
  | Resume i =>
      match stages st !! i with
      | Some Woken =>
          let st1 := {| _value := _value st;
                        _waiters := remove_first i (_waiters st);
                        stages := <[i := Inside]> (stages st) |} in
          Some (if (0 <? _value st1)%nat then _wake_up_next st1 else st1)
      | _ => None
      end
  | Leave i =>
      match stages st !! i with
      | Some Inside =>
          Some (_wake_up_next {| _value := _value st + 1;
                                 _waiters := _waiters st;
                                 stages := <[i := Finished]> (stages st) |})
      | _ => None
      end
  end.

Fixpoint play (schedule : list event) (st : state) : option state :=
  match schedule with
  | [] => Some st
  | ev :: schedule' =>
      match fire ev st with
      | Some st' => play schedule' st'
      | None => None
      end
  end.

(** Counting the tasks by what they are at. *)
Definition tally (f : stage → nat) (l : list stage) : nat :=
  foldr (fun s k => f s + k) 0 l.

Definition is_inside (s : stage) : nat := match s with Inside => 1 | _ => 0 end.
Definition is_woken (s : stage) : nat := match s with Woken => 1 | _ => 0 end.

(** The tasks inside their specialist's [run]. *)
Definition inside (st : state) : nat := tally is_inside (stages st).

(** The tasks a slot has been handed to and that have not gone on yet. *)
Definition woken (st : state) : nat := tally is_woken (stages st).

(** What the gate sees of the semaphore. *)
Definition phase_of (s : stage) : Gate.phase :=
  match s with
  | Inside => Gate.Running
  | Finished => Gate.Settled
  | _ => Gate.Waiting
  end.

Definition gate_of (st : state) : Gate.state :=
  {| Gate.value := _value st + woken st;
     Gate.tasks := phase_of <$> stages st |}.

(** A task that starts and must wait is no event of the gate. *)
Definition gate_event (st : state) (ev : event) : list Gate.event :=
  match ev with
  | Start i => if locked st then [] else [Gate.Enter i]
  | Resume i => [Gate.Enter i]
  | Leave i => [Gate.Exit i]
  end.

Fixpoint gate_schedule (schedule : list event) (st : state) : list Gate.event :=
  match schedule with
  | [] => []
  | ev :: schedule' =>
      match fire ev st with
      | Some st' => (gate_event st ev ++ gate_schedule schedule' st')%list
      | None => []
      end
  end.

End Semaphore.

(** ** The selection rule in the words of the specification *)

Definition returned {A} (r : outcome A) : bool :=
  match r with Returns _ => true | Raises _ => false end.

(** Backend 1 is available: a token is configured, it is not the placeholder,
    and the client can be built and answers the calendar lookup. *)
Definition tushare_available (w : World) (cfg : DataProviderConfig) : bool :=
  match tushare_token cfg with
  | Some token =>
      negb (String.eqb token "") && negb (String.eqb token "invalid_token")
      && returned (ts_pro_api w token)
      && returned (pro_trade_cal w token "" "20250101" "20250101")
  | None => false
  end.

(** Backend 2 is available: username and password are configured and the
    constructor succeeds. *)
Definition rqdata_available (w : World) (cfg : DataProviderConfig) : bool :=
  match rqdata_username cfg, rqdata_password cfg with
  | Some username, Some password =>
      negb (String.eqb username "") && negb (String.eqb password "")
      && returned (rqdatac_init w username password)
  | _, _ => false
  end.

Definition available (w : World) (cfg : DataProviderConfig) (b : Backend) : bool :=
  match b with
  | tushare => tushare_available w cfg
  | rqdata => rqdata_available w cfg
  | akshare => true
  end.

Definition priority_choice (w : World) (cfg : DataProviderConfig) : Backend :=
  if tushare_available w cfg then tushare
  else if rqdata_available w cfg then rqdata
  else akshare.

Definition backend_name (b : Backend) : string :=
  match b with
  | tushare => "tushare"
  | rqdata => "rqdata"
  | akshare => "akshare"
  end.

(** ** Two worlds and some settings to run the code in *)

Definition unreachable {A} : outcome A := Raises (Exn OtherError "connection refused").

(** No remote service answers. *)
Definition offline : World := {|
  ak_stock_individual_info_em _ := unreachable;
  ak_stock_zh_a_hist _ _ _ := unreachable;
  ak_stock_zh_a_spot_em _ := unreachable;
  ts_pro_api _ := unreachable;
  pro_trade_cal _ _ _ _ := unreachable;
  pro_stock_basic _ _ := unreachable;
  pro_daily_basic _ _ := unreachable;
  pro_daily _ _ _ _ := unreachable;
  rqdatac_init _ _ := unreachable;
  rqdatac_instruments _ := unreachable;
  rqdatac_get_price _ _ _ := unreachable;
  rqdatac_current_snapshot _ := unreachable;
  get_recent_trading_day := Returns "2025-01-02";
|}.

(** Every service answers, and none has data on any code. *)
Definition no_data : World := {|
  ak_stock_individual_info_em _ := Returns [];
  ak_stock_zh_a_hist _ _ _ := Returns [];
  ak_stock_zh_a_spot_em _ := Returns [];
  ts_pro_api _ := Returns tt;
  pro_trade_cal _ _ _ _ := Returns tt;
  pro_stock_basic _ _ := Returns [];
  pro_daily_basic _ _ := Returns [];
  pro_daily _ _ _ _ := Returns [];
  rqdatac_init _ _ := Returns tt;
  rqdatac_instruments _ := Returns None;
  rqdatac_get_price _ _ _ := Returns [];
  rqdatac_current_snapshot _ := Returns [];
  get_recent_trading_day := Returns "2025-01-02";
|}.

(** Every service answers, and akshare knows the name of every code. *)
Definition listed : World := {|
  ak_stock_individual_info_em _ :=
    Returns [ (LInt 0, {[ "item" := "name"; "value" := "Kweichow Moutai" ]});
              (LInt 1, {[ "item" := "industry"; "value" := "liquor" ]}) ];
  ak_stock_zh_a_hist _ _ _ := Returns [];
  ak_stock_zh_a_spot_em _ := Returns [];
  ts_pro_api _ := Returns tt;
  pro_trade_cal _ _ _ _ := Returns tt;
  pro_stock_basic _ _ := Returns [];
  pro_daily_basic _ _ := Returns [];
  pro_daily _ _ _ _ := Returns [];
  rqdatac_init _ _ := Returns tt;
  rqdatac_instruments _ := Returns None;
  rqdatac_get_price _ _ _ := Returns [];
  rqdatac_current_snapshot _ := Returns [];
  get_recent_trading_day := Returns "2025-01-02";
|}.

Definition settings (mode : string) (token username password : option string)
  : DataProviderConfig :=
  {| provider := mode; tushare_token := token;
     rqdata_username := username; rqdata_password := password |}.

(** Nothing configured but the mode. *)
Definition bare (mode : string) : DataProviderConfig := settings mode None None None.

(** All credentials configured. *)
Definition full (mode : string) : DataProviderConfig :=
  settings mode (Some "tok") (Some "user") (Some "secret").

(** ** Notions the statements below are written with *)

(** What an attempt on backend [b] does to the process: it leaves the
    cache alone, calls only [b], and gives an object of [b]'s class exactly
    when [b] is available. *)
Definition attempts (w : World) (cfg : DataProviderConfig) (b : Backend)
    (attempt : M (option Object)) : Prop :=
  ∀ s, ∃ r s' made,
    attempt s = (r, s')
    ∧ _provider_instance s' = _provider_instance s
    ∧ calls s' = (calls s ++ made)%list
    ∧ Forall (fun c => backend_of c = b) made
    ∧ match r with
      | Some inst => available w cfg b = true ∧ class_of (obj inst) = b
      | None => available w cfg b = false
      end.

Section Slots.
Import StockInfoRequest Research.

(** What the loop over the results stores in a slot. *)
Definition slot (result : pyobj) : pyobj :=
  match result with
  | PyExc e => PyStr ("Error: " ++ exn_str e)
  | _ => result
  end.

(** Specialists to run the code with: one that answers, one that raises. *)
Definition steady (answer : string) : Agent :=
  {| memory := Some []; agent_run := fun _ _ => Returns (PyStr answer) |}.

Definition faulty (msg : string) : Agent :=
  {| memory := Some []; agent_run := fun _ _ => Raises (Exn OtherError msg) |}.

Definition environment (registry : gmap string Agent) : ResearchEnvironment :=
  {| analysis_mapping := default_analysis_mapping;
     agents := registry;
     results := ∅ |}.

(** Only the risk specialist is registered. *)
Definition only_risk : ResearchEnvironment :=
  environment {[ "risk_control_agent" := steady "low risk" ]}.

(** All six are registered; two of them raise. *)
Definition six : ResearchEnvironment :=
  environment
    (list_to_map
       [ ("sentiment_agent", steady "calm");
         ("risk_control_agent", steady "low risk");
         ("hot_money_agent", faulty "timeout");
         ("technical_analysis_agent", steady "uptrend");
         ("chip_analysis_agent", faulty "no chip data");
         ("big_deal_analysis_agent", steady "no big deal") ]).

(** A specialist that returns the object it is given. *)
Definition returning (v : pyobj) : Agent :=
  {| memory := Some []; agent_run := fun _ _ => Returns v |}.

(** All six are registered; two of them raise, four return, one of these
    an exception object: [return RuntimeError("stale data")]. *)
Definition six_returning_exception : ResearchEnvironment :=
  environment
    (list_to_map
       [ ("sentiment_agent", steady "calm");
         ("risk_control_agent", steady "low risk");
         ("hot_money_agent", faulty "timeout");
         ("technical_analysis_agent", returning (PyExc (Exn RuntimeError "stale data")));
         ("chip_analysis_agent", faulty "no chip data");
         ("big_deal_analysis_agent", steady "no big deal") ]).

Definition result_of (self : ResearchEnvironment) : gmap string pyobj :=
  (run offline (bare "auto") self "600519" fresh_process).1.1.



End Slots.

(** Slots taken and slots free add up to the capacity. *)
Definition balanced (st : Gate.state) : Prop := Gate.live st + Gate.value st = Gate.capacity.

(** ** Further notions *)

(** [c in s] *)
Fixpoint mentions (c : ascii) (s : string) : bool :=
  match s with
  | EmptyString => false
  | String a r => Ascii.eqb a c || mentions c r
  end.

(** The cells of a frame's rows under one column, where present. *)
Definition cells (c : string) (df : DataFrame) : list (option string) :=
  map (fun lr => lr.2 !! c) df.

(** The last row of a frame whose key, as [key] reads it, is [k]. *)
Fixpoint last_row_keyed (key : label → Row → option string) (k : string)
    (df : DataFrame) : option Row :=
  match df with
  | [] => None
  | (label, row) :: df' =>
      match last_row_keyed key k df' with
      | Some later => Some later
      | None => if bool_decide (key label row = Some k) then Some row else None
      end
  end.

(** Every service answers; akshare and tushare with frames that lack the
    columns the providers read, rqdata with two rows for one code. *)
Definition malformed : World := {|
  ak_stock_individual_info_em _ :=
    Returns [ (LInt 0, {[ "value" := "Kweichow Moutai" ]});
              (LInt 1, {[ "value" := "liquor" ]}) ];
  ak_stock_zh_a_hist := ak_stock_zh_a_hist no_data;
  ak_stock_zh_a_spot_em _ :=
    Returns [ (LInt 0, {[ "price" := "1500" ]}); (LInt 1, {[ "price" := "11" ]}) ];
  ts_pro_api := ts_pro_api no_data;
  pro_trade_cal := pro_trade_cal no_data;
  pro_stock_basic := pro_stock_basic no_data;
  pro_daily_basic _ _ :=
    Returns [ (LInt 0, {[ "close" := "1500" ]}); (LInt 1, {[ "close" := "11" ]}) ];
  pro_daily := pro_daily no_data;
  rqdatac_init := rqdatac_init no_data;
  rqdatac_instruments := rqdatac_instruments no_data;
  rqdatac_get_price := rqdatac_get_price no_data;
  rqdatac_current_snapshot _ :=
    Returns [ (LStr "600519.XSHG", {[ "last" := "1500" ]});
              (LStr "000001.XSHE", {[ "last" := "11" ]});
              (LStr "600519.XSHG", {[ "last" := "1501" ]}) ];
  get_recent_trading_day := get_recent_trading_day no_data;
|}.

(** Every service answers with data on the two codes 600519 and 000001;
    rqdata with a snapshot under the default index. *)
Definition quoting : World := {|
  ak_stock_individual_info_em := ak_stock_individual_info_em listed;
  ak_stock_zh_a_hist := ak_stock_zh_a_hist no_data;
  ak_stock_zh_a_spot_em _ :=
    Returns [ (LInt 0, {[ "代码" := "600519"; "最新价" := "1500" ]});
              (LInt 1, {[ "代码" := "000001"; "最新价" := "11" ]}) ];
  ts_pro_api := ts_pro_api no_data;
  pro_trade_cal := pro_trade_cal no_data;
  pro_stock_basic _ _ :=
    Returns [ (LInt 0, {[ "ts_code" := "600519.SH"; "name" := "Kweichow Moutai" ]}) ];
  pro_daily_basic _ _ :=
    Returns [ (LInt 0, {[ "ts_code" := "600519.SH"; "close" := "1500" ]});
              (LInt 1, {[ "ts_code" := "000001.SZ"; "close" := "11" ]}) ];
  pro_daily := pro_daily no_data;
  rqdatac_init := rqdatac_init no_data;
  rqdatac_instruments := rqdatac_instruments no_data;
  rqdatac_get_price := rqdatac_get_price no_data;
  rqdatac_current_snapshot _ :=
    Returns [ (LInt 0, {[ "order_book_id" := "600519.XSHG"; "last" := "1500" ]});
              (LInt 1, {[ "order_book_id" := "000001.XSHE"; "last" := "11" ]}) ];
  get_recent_trading_day := get_recent_trading_day no_data;
|}.

(** Every service answers; the frames have two rows and no column. *)
Definition blank : World := {|
  ak_stock_individual_info_em _ := Returns [ (LInt 0, ∅); (LInt 1, ∅) ];
  ak_stock_zh_a_hist := ak_stock_zh_a_hist no_data;
  ak_stock_zh_a_spot_em _ := Returns [ (LInt 0, ∅); (LInt 1, ∅) ];
  ts_pro_api := ts_pro_api no_data;
  pro_trade_cal := pro_trade_cal no_data;
  pro_stock_basic _ _ := Returns [ (LInt 0, ∅); (LInt 1, ∅) ];
  pro_daily_basic _ _ := Returns [ (LInt 0, ∅); (LInt 1, ∅) ];
  pro_daily := pro_daily no_data;
  rqdatac_init := rqdatac_init no_data;
  rqdatac_instruments := rqdatac_instruments no_data;
  rqdatac_get_price := rqdatac_get_price no_data;
  rqdatac_current_snapshot _ := Returns [ (LInt 0, ∅); (LInt 1, ∅) ];
  get_recent_trading_day := get_recent_trading_day no_data;
|}.



(** The two properties of [StockInfoResponse] (stock_info_request.py). *)
Module StockInfoResponseProperties.
Import StockInfoRequest.

(** [self.output.get("current_trading_day", "")] *)
Definition current_trading_day (self : StockInfoResponse) : pyobj :=
  default (PyStr "") (output self !! "current_trading_day").

(** [self.output.get("basic_info", {})] *)
Definition basic_info (self : StockInfoResponse) : pyobj :=
  default (PyDict ∅) (output self !! "basic_info").

End StockInfoResponseProperties.

(** A backend whose credentials the selector does not accept. *)
Definition tushare_unconfigured (cfg : DataProviderConfig) : Prop :=
  truthy (tushare_token cfg) = false ∨ tushare_token cfg = Some "invalid_token".

Definition rqdata_unconfigured (cfg : DataProviderConfig) : Prop :=
  truthy (rqdata_username cfg) = false ∨ truthy (rqdata_password cfg) = false.


(** * Properties *)

(** ** Code translation *)

Section CodeTranslation.
Example ts_600519 : Tushare._convert_to_ts_code "600519" = "600519.SH".
Proof. reflexivity. Qed.
Example ts_000001 : Tushare._convert_to_ts_code "000001" = "000001.SZ".
Proof. reflexivity. Qed.
Example ts_430001 : Tushare._convert_to_ts_code "430001" = "430001.BJ".
Proof. reflexivity. Qed.
Example rq_300750 : RQData._convert_to_rq_code "300750" = "300750.XSHE".
Proof. reflexivity. Qed.
Example rq_830001 : RQData._convert_to_rq_code "830001" = "830001.XSES".
Proof. reflexivity. Qed.
Example ts_no_digits : Tushare._convert_to_ts_code "" = ".SH".
Proof. reflexivity. Qed.

Lemma ts_code_by_leading (stock_code : string) :
  Tushare._convert_to_ts_code stock_code
  = stock_code ++ ts_suffix (market_of_leading (leading stock_code)).
Proof.
  destruct stock_code as [|a rest]; [reflexivity|].
  destruct a as [[] [] [] [] [] [] [] []]; destruct rest; reflexivity.
Qed.

Lemma rq_code_by_leading (stock_code : string) :
  RQData._convert_to_rq_code stock_code
  = stock_code ++ rq_suffix (market_of_leading (leading stock_code)).
Proof.
  destruct stock_code as [|a rest]; [reflexivity|].
  destruct a as [[] [] [] [] [] [] [] []]; destruct rest; reflexivity.
Qed.

(** C5. Both translators append to the canonical code a suffix that only
    its leading character decides: Shanghai for 6, Shenzhen for 0 and 3,
    Beijing for 8 and 4, and Shanghai again for anything else; 999999 is
    translated, to the Shanghai form, and nothing fails. *)
Theorem convert_code_by_leading_digit (stock_code : string) :
  Tushare._convert_to_ts_code stock_code
    = stock_code ++ ts_suffix (market_of_leading (leading stock_code))
  ∧ RQData._convert_to_rq_code stock_code
    = stock_code ++ rq_suffix (market_of_leading (leading stock_code))
  ∧ Tushare._convert_to_ts_code "999999" = "999999.SH"
  ∧ RQData._convert_to_rq_code "999999" = "999999.XSHG".
Proof.
  split; [apply ts_code_by_leading|].
  split; [apply rq_code_by_leading|].
  split; reflexivity.
Qed.

End CodeTranslation.

(** ** The selector *)

Section Selector.
Context (w : World) (cfg : DataProviderConfig).

Lemma truthy_Some (o : option string) :
  truthy o = true → ∃ v, o = Some v ∧ String.eqb v "" = false.
Proof.
  destruct o as [v|]; [|discriminate]. simpl.
  destruct (String.eqb v "") eqn:E; [discriminate|]. intros _. eauto.
Qed.

Lemma truthy_false (o : option string) :
  truthy o = false → o = None ∨ o = Some "".
Proof.
  destruct o as [v|]; [|auto]. simpl.
  destruct (String.eqb_spec v ""); [subst; auto | discriminate].
Qed.

Lemma try_tushare_attempts : attempts w cfg tushare (try_tushare w cfg).
Proof.
  intros s. unfold try_tushare, available, tushare_available.
  destruct (truthy (tushare_token cfg)) eqn:Htok; simpl.
  - apply truthy_Some in Htok as (token & -> & Hne). simpl. rewrite Hne. simpl.
    case_bool_decide as Hph; simpl.
    + inversion Hph; subst. simpl.
      eexists None, s, []. rewrite app_nil_r. repeat split; constructor.
    + assert (String.eqb token "invalid_token" = false) as ->.
      { destruct (String.eqb_spec token "invalid_token"); [subst; done | done]. }
      simpl. unfold bind, call, Tushare.__init__, new, ret. simpl.
      destruct (ts_pro_api w token) as [[]|e]; simpl.
      * destruct (pro_trade_cal w token "" "20250101" "20250101") as [[]|e]; simpl;
          eexists _, _, [TushareInit token; TushareTradeCal token];
          (split; [reflexivity|]); simpl; rewrite <- ?app_assoc; simpl;
          repeat split; repeat constructor.
      * eexists _, _, [TushareInit token].
        (split; [reflexivity|]); simpl. repeat split; repeat constructor.
  - eexists None, s, []. rewrite app_nil_r.
    repeat split; try constructor.
    apply truthy_false in Htok as [-> | ->]; reflexivity.
Qed.

Lemma try_rqdata_attempts : attempts w cfg rqdata (try_rqdata w cfg).
Proof.
  intros s. unfold try_rqdata, available, rqdata_available.
  destruct (truthy (rqdata_username cfg)) eqn:Hu; simpl.
  - apply truthy_Some in Hu as (username & -> & Hune).
    destruct (truthy (rqdata_password cfg)) eqn:Hp; simpl.
    + apply truthy_Some in Hp as (password & -> & Hpne). simpl.
      rewrite Hune, Hpne. simpl.
      unfold bind, call, RQData.__init__, new, ret. simpl.
      destruct (rqdatac_init w username password) as [[]|e]; simpl;
        eexists _, _, [RQDataInit username password];
        (split; [reflexivity|]); simpl; repeat split; repeat constructor.
    + eexists None, s, []. rewrite app_nil_r.
      repeat split; try constructor.
      apply truthy_false in Hp as [-> | ->]; [reflexivity|].
      simpl. rewrite Hune. reflexivity.
  - eexists None, s, []. rewrite app_nil_r.
    repeat split; try constructor.
    apply truthy_false in Hu as [-> | ->]; [reflexivity|].
    destruct (rqdata_password cfg); reflexivity.
Qed.

Lemma try_akshare_attempts : attempts w cfg akshare (some try_akshare).
Proof.
  intros s. unfold some, try_akshare, bind, call, new, ret. simpl.
  eexists _, _, [AkshareInit]. split; [reflexivity|]. simpl.
  repeat split; repeat constructor.
Qed.

(** The chain of auto mode: backend 1 is tried first, backend 2 only when
    backend 1 gave nothing, backend 3 only when neither gave anything. *)
Lemma auto_chain_attempts s :
  ∃ inst s' m1 m2 m3,
    por (try_tushare w cfg) (por (try_rqdata w cfg) (some try_akshare)) s
    = (Some inst, s')
    ∧ class_of (obj inst) = priority_choice w cfg
    ∧ calls s' = (calls s ++ m1 ++ m2 ++ m3)%list
    ∧ Forall (fun c => backend_of c = tushare) m1
    ∧ Forall (fun c => backend_of c = rqdata) m2
    ∧ Forall (fun c => backend_of c = akshare) m3
    ∧ (tushare_available w cfg = true → m2 = [] ∧ m3 = [])
    ∧ (rqdata_available w cfg = true → m3 = []).
Proof.
  unfold por, bind, priority_choice.
  destruct (try_tushare_attempts s) as (r1 & s1 & m1 & -> & _ & Hc1 & Hm1 & Hr1).
  simpl in Hr1. destruct r1 as [inst|].
  { destruct Hr1 as [-> Hcls]. exists inst, s1, m1, [], [].
    rewrite !app_nil_r. unfold ret. repeat split; auto. }
  rewrite Hr1.
  destruct (try_rqdata_attempts s1) as (r2 & s2 & m2 & -> & _ & Hc2 & Hm2 & Hr2).
  simpl in Hr2. destruct r2 as [inst|].
  { destruct Hr2 as [-> Hcls]. exists inst, s2, m1, m2, [].
    rewrite app_nil_r, Hc2, Hc1, <- app_assoc. unfold ret.
    repeat split; auto; discriminate. }
  rewrite Hr2.
  destruct (try_akshare_attempts s2) as (r3 & s3 & m3 & -> & _ & Hc3 & Hm3 & Hr3).
  destruct r3 as [inst|]; [|discriminate Hr3].
  destruct Hr3 as [_ Hcls]. exists inst, s3, m1, m2, m3.
  rewrite Hc3, Hc2, Hc1, <- !app_assoc.
  repeat split; auto; discriminate.
Qed.

(** Whatever the attempt, the cache holds an object after [finish] exactly
    when [finish] returns it. *)
Lemma finish_cache name attempt s r s' :
  finish name attempt s = (r, s') →
  _provider_instance s' = match r with Returns inst => Some inst | Raises _ => None end.
Proof.
  unfold finish, bind. destruct (attempt s) as [found s1]. simpl.
  destruct found; unfold ret; intros [= <- <-]; reflexivity.
Qed.

Lemma resolve_cache s r s' :
  _provider_instance s = None →
  resolve w cfg s = (r, s') →
  _provider_instance s' = match r with Returns inst => Some inst | Raises _ => None end.
Proof.
  intros Hnone. unfold resolve.
  repeat (case_match; [apply finish_cache|]).
  unfold ret. intros [= <- <-]. done.
Qed.

Lemma get_data_provider_cache s r s' :
  get_data_provider w cfg s = (r, s') →
  _provider_instance s' = match r with Returns inst => Some inst | Raises _ => None end.
Proof.
  unfold get_data_provider. destruct (_provider_instance s) as [inst|] eqn:Hc.
  - intros [= <- <-]. done.
  - by apply resolve_cache.
Qed.

End Selector.

Section SelectorClaims.

Example auto_all_healthy :
  fst (get_data_provider no_data (full "auto") fresh_process)
  = Returns {| oid := 0; obj := TushareProvider (Tushare.Make "tok") |}.
Proof. reflexivity. Qed.

Example auto_placeholder_token :
  fst (get_data_provider no_data
         (settings "auto" (Some "invalid_token") (Some "user") (Some "secret"))
         fresh_process)
  = Returns {| oid := 0; obj := RQDataProvider RQData.Make |}.
Proof. reflexivity. Qed.

Example auto_offline :
  get_data_provider offline (full "auto") fresh_process
  = (Returns {| oid := 0; obj := AkshareProvider Akshare.Make |},
     {| _provider_instance := Some {| oid := 0; obj := AkshareProvider Akshare.Make |};
        next_oid := 1;
        calls := [TushareInit "tok"; RQDataInit "user" "secret"; AkshareInit] |}).
Proof. reflexivity. Qed.

(** C3. In auto mode, from an empty cache, the selector returns an object
    of backend 1 when that is available (token configured, not the
    placeholder, client built and calendar lookup answered), else of
    backend 2 when that is available (username and password configured,
    constructor succeeded), else of backend 3; it never fails.  The backends
    are called in this order, and a backend is called only when those before
    it are not available. *)
Theorem auto_mode_priority_order (w : World) (cfg : DataProviderConfig) (s : Process) :
  _provider_instance s = None →
  provider cfg = "auto" →
  ∃ inst s' m1 m2 m3,
    get_data_provider w cfg s = (Returns inst, s')
    ∧ _provider_instance s' = Some inst
    ∧ class_of (obj inst)
      = (if tushare_available w cfg then tushare
         else if rqdata_available w cfg then rqdata
         else akshare)
    ∧ calls s' = (calls s ++ m1 ++ m2 ++ m3)%list
    ∧ Forall (fun c => backend_of c = tushare) m1
    ∧ Forall (fun c => backend_of c = rqdata) m2
    ∧ Forall (fun c => backend_of c = akshare) m3
    ∧ (tushare_available w cfg = true → m2 = [] ∧ m3 = [])
    ∧ (rqdata_available w cfg = true → m3 = []).
Proof.
  intros Hnone Hauto. unfold get_data_provider, resolve. rewrite Hnone, Hauto. simpl.
  destruct (auto_chain_attempts w cfg s)
    as (inst & s1 & m1 & m2 & m3 & Hrun & Hcls & Hcalls & Hrest).
  unfold finish, bind. rewrite Hrun. simpl.
  exists inst, {| _provider_instance := Some inst;
                  next_oid := next_oid s1; calls := calls s1 |}, m1, m2, m3.
  repeat split; tauto.
Qed.

Lemma auto_mode_priority_order_witness :
  ∃ inst s' m1 m2 m3,
    get_data_provider no_data (full "auto") fresh_process = (Returns inst, s')
    ∧ _provider_instance s' = Some inst
    ∧ class_of (obj inst)
      = (if tushare_available no_data (full "auto") then tushare
         else if rqdata_available no_data (full "auto") then rqdata
         else akshare)
    ∧ calls s' = (calls fresh_process ++ m1 ++ m2 ++ m3)%list
    ∧ Forall (fun c => backend_of c = tushare) m1
    ∧ Forall (fun c => backend_of c = rqdata) m2
    ∧ Forall (fun c => backend_of c = akshare) m3
    ∧ (tushare_available no_data (full "auto") = true → m2 = [] ∧ m3 = [])
    ∧ (rqdata_available no_data (full "auto") = true → m3 = []).
Proof.
  apply (auto_mode_priority_order no_data (full "auto") fresh_process); reflexivity.
Defined.

(** C4. Once a call of the selector has returned an instance, every later
    call returns that same object and changes nothing, whatever the settings
    and the state of the backends are by then: no backend is called again. *)
Theorem cached_instance_is_returned
    (w1 : World) (cfg1 : DataProviderConfig) (s : Process) (inst : Object) (s1 : Process) :
  get_data_provider w1 cfg1 s = (Returns inst, s1) →
  ∀ (w2 : World) (cfg2 : DataProviderConfig),
    get_data_provider w2 cfg2 s1 = (Returns inst, s1).
Proof.
  intros Hfirst w2 cfg2. apply get_data_provider_cache in Hfirst.
  unfold get_data_provider. rewrite Hfirst. reflexivity.
Qed.

Lemma cached_instance_is_returned_witness :
  let inst := {| oid := 0; obj := TushareProvider (Tushare.Make "tok") |} in
  let s1 := {| _provider_instance := Some inst; next_oid := 1;
               calls := [TushareInit "tok"; TushareTradeCal "tok"] |} in
  get_data_provider no_data (full "auto") fresh_process = (Returns inst, s1)
  ∧ get_data_provider offline (bare "rqdata") s1 = (Returns inst, s1).
Proof.
  intros inst s1. split; [reflexivity|].
  apply (cached_instance_is_returned no_data (full "auto") fresh_process inst s1).
  reflexivity.
Defined.

Lemma finish_attempts w cfg name attempt b :
  attempts w cfg b attempt →
  ∀ s, ∃ r s' made,
    finish name attempt s = (r, s')
    ∧ calls s' = (calls s ++ made)%list
    ∧ Forall (fun c => backend_of c = b) made
    ∧ if available w cfg b
      then ∃ inst, r = Returns inst ∧ class_of (obj inst) = b
      else r = Raises (Exn RuntimeError ("Could not initialize data provider: " ++ name)).
Proof.
  intros H s. destruct (H s) as (found & s1 & made & Hrun & _ & Hcalls & Hmade & Hfound).
  unfold finish, bind. rewrite Hrun. simpl.
  destruct found as [inst|].
  - destruct Hfound as [-> Hc]. eexists _, _, made.
    split; [reflexivity|]. simpl. eauto.
  - rewrite Hfound. eexists _, _, made.
    split; [reflexivity|]. simpl. eauto.
Qed.

(** C7. From an empty cache, in the explicit mode of backend [b] the
    selector calls no backend but [b]; it returns an object of [b] when [b]
    is available and raises [RuntimeError] when it is not.  With a mode
    that is none of the four, it raises [ValueError] and has called no
    backend and changed nothing. *)
Theorem explicit_mode_probes_one_backend
    (w : World) (cfg : DataProviderConfig) (s : Process) :
  _provider_instance s = None →
  (∀ b : Backend, provider cfg = backend_name b →
     ∃ r s' made,
       get_data_provider w cfg s = (r, s')
       ∧ calls s' = (calls s ++ made)%list
       ∧ Forall (fun c => backend_of c = b) made
       ∧ if available w cfg b
         then ∃ inst, r = Returns inst ∧ class_of (obj inst) = b
         else r = Raises (Exn RuntimeError
                            ("Could not initialize data provider: " ++ provider cfg)))
  ∧ (provider cfg ∉ ["auto"; "tushare"; "rqdata"; "akshare"] →
     get_data_provider w cfg s
     = (Raises (Exn ValueError ("Unknown data provider: " ++ provider cfg)), s)).
Proof.
  intros Hnone. unfold get_data_provider. rewrite Hnone. split.
  - intros b Hb. unfold resolve. rewrite Hb.
    destruct b.
    + exact (finish_attempts w cfg "tushare" _ tushare (try_tushare_attempts w cfg) s).
    + exact (finish_attempts w cfg "rqdata" _ rqdata (try_rqdata_attempts w cfg) s).
    + exact (finish_attempts w cfg "akshare" _ akshare (try_akshare_attempts w cfg) s).
  - intros Hmode. unfold resolve.
    destruct (String.eqb_spec (provider cfg) "auto") as [Heq|_];
      [exfalso; apply Hmode; rewrite Heq; set_solver|].
    destruct (String.eqb_spec (provider cfg) "tushare") as [Heq|_];
      [exfalso; apply Hmode; rewrite Heq; set_solver|].
    destruct (String.eqb_spec (provider cfg) "rqdata") as [Heq|_];
      [exfalso; apply Hmode; rewrite Heq; set_solver|].
    destruct (String.eqb_spec (provider cfg) "akshare") as [Heq|_];
      [exfalso; apply Hmode; rewrite Heq; set_solver|].
    reflexivity.
Qed.

Lemma explicit_mode_probes_one_backend_witness :
  (∃ r s' made,
      get_data_provider offline (full "tushare") fresh_process = (r, s')
      ∧ calls s' = (calls fresh_process ++ made)%list
      ∧ Forall (fun c => backend_of c = tushare) made
      ∧ if available offline (full "tushare") tushare
        then ∃ inst, r = Returns inst ∧ class_of (obj inst) = tushare
        else r = Raises (Exn RuntimeError
                           ("Could not initialize data provider: " ++ "tushare")))
  ∧ get_data_provider no_data (full "wind") fresh_process
    = (Raises (Exn ValueError ("Unknown data provider: " ++ "wind")), fresh_process).
Proof.
  split.
  - apply (proj1 (explicit_mode_probes_one_backend
                    offline (full "tushare") fresh_process eq_refl) tushare eq_refl).
  - apply (proj2 (explicit_mode_probes_one_backend
                    no_data (full "wind") fresh_process eq_refl)).
    simpl. intros H.
    repeat (apply elem_of_cons in H as [H|H]; [discriminate H|]).
    apply elem_of_nil in H. exact H.
Defined.

Example explicit_tushare_offline :
  get_data_provider offline (full "tushare") fresh_process
  = (Raises (Exn RuntimeError "Could not initialize data provider: tushare"),
     {| _provider_instance := None; next_oid := 0; calls := [TushareInit "tok"] |}).
Proof. reflexivity. Qed.

Example explicit_rqdata_unconfigured :
  get_data_provider no_data (bare "rqdata") fresh_process
  = (Raises (Exn RuntimeError "Could not initialize data provider: rqdata"),
     fresh_process).
Proof. reflexivity. Qed.

(** C10. When a call of the selector raises, the cache is unset afterwards
    and the next call goes through the whole selection again; the cache
    holds an object after a call only if the call returned that object. *)
Theorem failed_selection_is_not_cached
    (w : World) (cfg : DataProviderConfig) (s : Process)
    (r : outcome Object) (s' : Process) :
  get_data_provider w cfg s = (r, s') →
  (∀ e, r = Raises e →
     _provider_instance s' = None
     ∧ ∀ (w2 : World) (cfg2 : DataProviderConfig),
         get_data_provider w2 cfg2 s' = resolve w2 cfg2 s')
  ∧ (∀ inst, _provider_instance s' = Some inst → r = Returns inst).
Proof.
  intros Hcall. apply get_data_provider_cache in Hcall. split.
  - intros e ->. split; [done|].
    intros w2 cfg2. unfold get_data_provider. rewrite Hcall. reflexivity.
  - intros inst Hc. rewrite Hc in Hcall. destruct r; congruence.
Qed.

Lemma failed_selection_is_not_cached_witness :
  let s' := {| _provider_instance := None; next_oid := 0; calls := [TushareInit "tok"] |} in
  _provider_instance s' = None
  ∧ ∀ (w2 : World) (cfg2 : DataProviderConfig),
      get_data_provider w2 cfg2 s' = resolve w2 cfg2 s'.
Proof.
  intros s'.
  apply (proj1 (failed_selection_is_not_cached offline (full "tushare") fresh_process
                  (Raises (Exn RuntimeError "Could not initialize data provider: tushare"))
                  s' eq_refl)
           (Exn RuntimeError "Could not initialize data provider: tushare") eq_refl).
Defined.

Example retry_after_failure :
  fst (get_data_provider no_data (full "tushare")
         (snd (get_data_provider offline (full "tushare") fresh_process)))
  = Returns {| oid := 0; obj := TushareProvider (Tushare.Make "tok") |}.
Proof. reflexivity. Qed.

End SelectorClaims.

(** ** The fetch operations *)

Section Fetch.

Example akshare_basic_info_offline :
  get_stock_basic_info offline (AkshareProvider Akshare.Make) "600519" = None.
Proof. reflexivity. Qed.

Example akshare_basic_info_no_data :
  get_stock_basic_info no_data (AkshareProvider Akshare.Make) "600519" = None.
Proof. reflexivity. Qed.

Example tushare_quotes_offline :
  get_real_time_quotes offline (TushareProvider (Tushare.Make "tok"))
    (inr ["600519"; "000001"]) = None.
Proof. reflexivity. Qed.

Example rqdata_daily_no_data :
  get_daily_market_data no_data (RQDataProvider RQData.Make)
    "600519" "2025-01-01" "2025-01-31" = Some [].
Proof. reflexivity. Qed.

(** The claim as first written fails on daily bars: with the service down
    the caller gets [None], with the service up and no bar in the range it
    gets the empty frame the service returned, and can tell the two apart. *)
Lemma daily_bars_failure_is_distinguishable :
  ak_stock_zh_a_hist offline "600519" "20250101" "20250131" = unreachable
  ∧ ak_stock_zh_a_hist no_data "600519" "20250101" "20250131" = Returns []
  ∧ get_daily_market_data offline (AkshareProvider Akshare.Make)
      "600519" "2025-01-01" "2025-01-31" = None
  ∧ get_daily_market_data no_data (AkshareProvider Akshare.Make)
      "600519" "2025-01-01" "2025-01-31" = Some []
  ∧ get_daily_market_data offline (AkshareProvider Akshare.Make)
      "600519" "2025-01-01" "2025-01-31"
    ≠ get_daily_market_data no_data (AkshareProvider Akshare.Make)
        "600519" "2025-01-01" "2025-01-31".
Proof. repeat split; discriminate. Qed.

Context (w : World).

(** C6, amended.  In each of the three providers, each fetch operation
    returns [None] when a remote call it makes raises; no exception leaves
    it.  Basic info and real-time quotes also return [None] when the
    service answers with nothing, so that there a failure looks like "no
    data"; daily bars hand on the frame the service returned as it is, an
    empty one included. *)
Theorem remote_failure_gives_none :
  (* a remote call raises *)
  ((∀ self code e,
      ak_stock_individual_info_em w code = Raises e →
      get_stock_basic_info w (AkshareProvider self) code = None)
   ∧ (∀ self code d1 d2 e,
      ak_stock_zh_a_hist w code (remove_char "-" d1) (remove_char "-" d2) = Raises e →
      get_daily_market_data w (AkshareProvider self) code d1 d2 = None)
   ∧ (∀ self codes e,
      ak_stock_zh_a_spot_em w (join "," (as_list codes)) = Raises e →
      get_real_time_quotes w (AkshareProvider self) codes = None)
   ∧ (∀ self code e,
      pro_stock_basic w (Tushare.pro self) (Tushare._convert_to_ts_code code) = Raises e →
      get_stock_basic_info w (TushareProvider self) code = None)
   ∧ (∀ self code e,
      pro_daily_basic w (Tushare.pro self) (Tushare._convert_to_ts_code code) = Raises e →
      get_stock_basic_info w (TushareProvider self) code = None)
   ∧ (∀ self code d1 d2 e,
      pro_daily w (Tushare.pro self) (Tushare._convert_to_ts_code code)
        (remove_char "-" d1) (remove_char "-" d2) = Raises e →
      get_daily_market_data w (TushareProvider self) code d1 d2 = None)
   ∧ (∀ self codes e,
      pro_daily_basic w (Tushare.pro self)
        (join "," (map Tushare._convert_to_ts_code (as_list codes))) = Raises e →
      get_real_time_quotes w (TushareProvider self) codes = None)
   ∧ (∀ self code e,
      rqdatac_instruments w (RQData._convert_to_rq_code code) = Raises e →
      get_stock_basic_info w (RQDataProvider self) code = None)
   ∧ (∀ self code d1 d2 e,
      rqdatac_get_price w (RQData._convert_to_rq_code code) d1 d2 = Raises e →
      get_daily_market_data w (RQDataProvider self) code d1 d2 = None)
   ∧ (∀ self codes e,
      rqdatac_current_snapshot w (map RQData._convert_to_rq_code (as_list codes))
        = Raises e →
      get_real_time_quotes w (RQDataProvider self) codes = None))
  (* the service answers with nothing: basic info and quotes *)
  ∧ ((∀ self code,
      ak_stock_individual_info_em w code = Returns [] →
      get_stock_basic_info w (AkshareProvider self) code = None)
   ∧ (∀ self codes,
      ak_stock_zh_a_spot_em w (join "," (as_list codes)) = Returns [] →
      get_real_time_quotes w (AkshareProvider self) codes = None)
   ∧ (∀ self code,
      pro_stock_basic w (Tushare.pro self) (Tushare._convert_to_ts_code code) = Returns [] →
      get_stock_basic_info w (TushareProvider self) code = None)
   ∧ (∀ self codes,
      pro_daily_basic w (Tushare.pro self)
        (join "," (map Tushare._convert_to_ts_code (as_list codes))) = Returns [] →
      get_real_time_quotes w (TushareProvider self) codes = None)
   ∧ (∀ self code,
      rqdatac_instruments w (RQData._convert_to_rq_code code) = Returns None →
      get_stock_basic_info w (RQDataProvider self) code = None)
   ∧ (∀ self codes,
      rqdatac_current_snapshot w (map RQData._convert_to_rq_code (as_list codes))
        = Returns [] →
      get_real_time_quotes w (RQDataProvider self) codes = None))
  (* daily bars: what the service returned *)
  ∧ ((∀ self code d1 d2 df,
      ak_stock_zh_a_hist w code (remove_char "-" d1) (remove_char "-" d2) = Returns df →
      get_daily_market_data w (AkshareProvider self) code d1 d2 = Some df)
   ∧ (∀ self code d1 d2 df,
      pro_daily w (Tushare.pro self) (Tushare._convert_to_ts_code code)
        (remove_char "-" d1) (remove_char "-" d2) = Returns df →
      get_daily_market_data w (TushareProvider self) code d1 d2 = Some df)
   ∧ (∀ self code d1 d2 df,
      rqdatac_get_price w (RQData._convert_to_rq_code code) d1 d2 = Returns df →
      get_daily_market_data w (RQDataProvider self) code d1 d2 = Some df)).
Proof.
  repeat split; intros; simpl;
    unfold Akshare.get_stock_basic_info, Akshare.get_daily_market_data,
      Akshare.get_real_time_quotes, Tushare.get_stock_basic_info,
      Tushare.get_daily_market_data, Tushare.get_real_time_quotes,
      RQData.get_stock_basic_info, RQData.get_daily_market_data,
      RQData.get_real_time_quotes;
    try (match goal with H : _ = _ |- _ => rewrite H end; reflexivity).
  (* tushare basic info, second call *)
  destruct (pro_stock_basic w (Tushare.pro self) (Tushare._convert_to_ts_code code))
    as [stock_basic_df|e']; simpl; [|reflexivity].
  destruct (df_empty stock_basic_df); [reflexivity|].
  destruct (iloc0 stock_basic_df) as [stock_info|e']; simpl; [|reflexivity].
  match goal with H : _ = _ |- _ => rewrite H end. reflexivity.
Qed.

End Fetch.

Lemma remote_failure_gives_none_witness :
  get_stock_basic_info offline (AkshareProvider Akshare.Make) "600519" = None
  ∧ get_real_time_quotes offline (TushareProvider (Tushare.Make "tok")) (inl "600519") = None
  ∧ get_stock_basic_info no_data (RQDataProvider RQData.Make) "600519" = None
  ∧ get_daily_market_data no_data (TushareProvider (Tushare.Make "tok"))
      "600519" "2025-01-01" "2025-01-31" = Some [].
Proof.
  split; [|split; [|split]].
  - apply (proj1 (proj1 (remote_failure_gives_none offline))
             Akshare.Make "600519" (Exn OtherError "connection refused")).
    reflexivity.
  - apply (proj1 (proj2 (proj2 (proj2 (proj2 (proj2 (proj2
             (proj1 (remote_failure_gives_none offline))))))))
             (Tushare.Make "tok") (inl "600519") (Exn OtherError "connection refused")).
    reflexivity.
  - apply (proj1 (proj2 (proj2 (proj2 (proj2
             (proj1 (proj2 (remote_failure_gives_none no_data)))))))
             RQData.Make "600519").
    reflexivity.
  - apply (proj1 (proj2 (proj2 (proj2 (remote_failure_gives_none no_data))))
             (Tushare.Make "tok") "600519" "2025-01-01" "2025-01-31" []).
    reflexivity.
Defined.

(** ** The orchestrator *)

Section Orchestrator.
Import StockInfoRequest Research.

Lemma record_result_insert results agent_key result_key result :
  record_result results ((agent_key, result_key), result)
  = <[result_key := slot result]> results.
Proof. destruct result; reflexivity. Qed.



Lemma foldl_record_result_dom acc (items : list ((string * string) * pyobj)) :
  dom (foldl record_result acc items) = dom acc ∪ list_to_set items.*1.*2.
Proof.
  revert acc. induction items as [|[[ak rk] r] items IH]; intros acc.
  - simpl. set_solver.
  - cbn [foldl]. rewrite IH, record_result_insert, dom_insert_L, !fmap_cons.
    simpl. set_solver.
Qed.

(** The slots that get filled are those of the first items of the mapping, as
    many as there are task results, whichever specialists the results are of. *)
Lemma collect_dom mapping task_results :
  dom (collect mapping task_results)
  = list_to_set (take (length task_results) mapping).*2.
Proof.
  unfold collect. rewrite foldl_record_result_dom, dom_empty_L, (left_id_L ∅ (∪)).
  f_equal. f_equal.
  revert task_results.
  induction mapping as [|item mapping IH]; intros [|r rs]; simpl; try done.
  by rewrite IH.
Qed.

(** Seeding the context neither registers nor drops a specialist. *)
Lemma seed_context_is_Some m keys (registry : gmap string Agent) k :
  is_Some (seed_context m keys registry !! k) ↔ is_Some (registry !! k).
Proof.
  revert registry. induction keys as [|key keys IH]; intros registry; [done|].
  simpl. unfold get_agent at 1.
  destruct (registry !! key) as [agent|] eqn:Hkey; [|apply IH].
  rewrite IH. destruct (decide (key = k)) as [->|Hne].
  - rewrite lookup_insert_eq, Hkey. split; eauto.
  - by rewrite lookup_insert_ne.
Qed.

Lemma seed_context_empty m keys : seed_context m keys ∅ = ∅.
Proof. induction keys as [|key keys IH]; [done|]. simpl. exact IH. Qed.


Lemma dispatch_empty mapping code : dispatch mapping ∅ code = [].
Proof. induction mapping as [|[ak rk] mapping IH]; [done|]. simpl. exact IH. Qed.

End Orchestrator.

Section OrchestratorRuns.
Import StockInfoRequest Research.

Example six_run :
  result_of six
  = list_to_map
      [ ("sentiment", PyStr "calm");
        ("risk", PyStr "low risk");
        ("hot_money", PyStr "Error: timeout");
        ("technical", PyStr "uptrend");
        ("chip_analysis", PyStr "Error: no chip data");
        ("big_deal", PyStr "no big deal");
        ("stock_code", PyStr "600519") ].
Proof. vm_compute. reflexivity. Qed.

Example six_run_with_basic_info :
  (run listed (bare "auto") six "600519" fresh_process).1.1
  = list_to_map
      [ ("sentiment", PyStr "calm");
        ("risk", PyStr "low risk");
        ("hot_money", PyStr "Error: timeout");
        ("technical", PyStr "uptrend");
        ("chip_analysis", PyStr "Error: no chip data");
        ("big_deal", PyStr "no big deal");
        ("basic_info",
         PyDict {[ "current_trading_day" := PyStr "2025-01-02";
                   "basic_info" := PyDict {[ "name" := PyStr "Kweichow Moutai";
                                             "industry" := PyStr "liquor" ]} ]});
        ("stock_code", PyStr "600519") ].
Proof. vm_compute. reflexivity. Qed.

Example context_is_seeded :
  memory <$> (agents (run listed (bare "auto") six "600519" fresh_process).1.2
                !! "risk_control_agent")
  = Some (Some [ system_message "600519" (PyStr "2025-01-02")
                   (PyDict {[ "name" := PyStr "Kweichow Moutai";
                              "industry" := PyStr "liquor" ]}) ]).
Proof. vm_compute. reflexivity. Qed.

Example only_risk_run :
  result_of only_risk
  = list_to_map [ ("sentiment", PyStr "low risk"); ("stock_code", PyStr "600519") ].
Proof. vm_compute. reflexivity. Qed.

(** C1 fails on the code when a specialist of the mapping is missing from
    the registry.  With only the risk specialist registered, one task is
    dispatched, and its outcome is filed under the key of the first item
    of the mapping: there is an entry for sentiment, which was never
    dispatched, and none for risk. *)
Theorem partial_registry_misfiles_outcome :
  dispatch default_analysis_mapping (agents only_risk) "600519"
    = [Returns (PyStr "low risk")]
  ∧ result_of only_risk !! "risk" = None
  ∧ result_of only_risk !! "sentiment" = Some (PyStr "low risk")
  ∧ dom (result_of only_risk) = {[ "sentiment"; "stock_code" ]}.
Proof. repeat split; vm_compute; reflexivity. Qed.



(** C2 fails on the code for a value that is an exception object.  All six
    specialists are registered, two raise and four return; the one that
    returns [RuntimeError("stale data")] does not find its value in its
    slot: [gather] hands over returned and raised exceptions alike, and the
    slot holds the failure string. *)
Lemma returned_exception_is_filed_as_failure :
  dom (agents six_returning_exception) = list_to_set default_analysis_mapping.*1
  ∧ dispatch default_analysis_mapping (agents six_returning_exception) "600519"
    = [ Returns (PyStr "calm");
        Returns (PyStr "low risk");
        Raises (Exn OtherError "timeout");
        Returns (PyExc (Exn RuntimeError "stale data"));
        Raises (Exn OtherError "no chip data");
        Returns (PyStr "no big deal") ]
  ∧ result_of six_returning_exception !! "technical" = Some (PyStr "Error: stale data")
  ∧ result_of six_returning_exception !! "technical"
    ≠ Some (PyExc (Exn RuntimeError "stale data")).
Proof.
  split; [vm_compute; reflexivity|].
  split; [vm_compute; reflexivity|].
  split; [vm_compute; reflexivity | vm_compute; discriminate].
Qed.





Lemma collect_no_results mapping : collect mapping [] = ∅.
Proof. destruct mapping as [|[agent_key result_key] mapping]; reflexivity. Qed.

(** C8. With no specialist registered, [run] returns the object with the
    two entries [error] and [stock_code], whatever the stock code, the
    mapping and the outcome of the basic-info fetch. *)
Theorem run_without_specialists
    (w : World) (cfg : DataProviderConfig) (self : ResearchEnvironment)
    (stock_code : string) (s : Process) :
  agents self = ∅ →
  (run w cfg self stock_code s).1.1
  = {[ "error" := PyStr "No specialist agents completed successfully";
       "stock_code" := PyStr stock_code ]}.
Proof.
  intros Hnone. unfold run, bind.
  destruct (execute w cfg stock_code s) as [bir s1].
  rewrite Hnone, seed_context_empty.
  assert ((if truthy (error bir) then (∅ : gmap string Agent) else ∅) = ∅) as ->
    by (by destruct (truthy (error bir))).
  rewrite dispatch_empty. simpl gather. rewrite collect_no_results.
  reflexivity.
Qed.

Lemma run_without_specialists_witness :
  (run no_data (full "auto") (environment ∅) "600519" fresh_process).1.1
  = {[ "error" := PyStr "No specialist agents completed successfully";
       "stock_code" := PyStr "600519" ]}.
Proof.
  apply (run_without_specialists no_data (full "auto") (environment ∅) "600519"
           fresh_process).
  reflexivity.
Defined.

End OrchestratorRuns.

(** ** The admission gate *)

Section GateClaims.
Import Gate.

Example three_at_once :
  live <$> play [Enter 0; Enter 4; Enter 2] (start 6) = Some 3.
Proof. reflexivity. Qed.

Example fourth_must_wait :
  play [Enter 0; Enter 4; Enter 2; Enter 1] (start 6) = None.
Proof. reflexivity. Qed.

Example all_six_settle :
  play [Enter 0; Enter 1; Enter 2; Exit 1; Enter 3; Exit 0; Exit 2;
        Enter 5; Enter 4; Exit 3; Exit 4; Exit 5] (start 6)
  = Some {| value := 3; tasks := replicate 6 Settled |}.
Proof. reflexivity. Qed.

Lemma running_waiting n : running (replicate n Waiting) = 0.
Proof. induction n; [reflexivity | exact IHn]. Qed.

Lemma running_enter ps i :
  ps !! i = Some Waiting → running (<[i := Running]> ps) = S (running ps).
Proof.
  revert i. induction ps as [|p ps IH]; intros i Hi; [done|].
  destruct i as [|i]; simpl in *.
  - by injection Hi as ->.
  - rewrite (IH i Hi). by destruct p.
Qed.

Lemma running_exit ps i :
  ps !! i = Some Running → S (running (<[i := Settled]> ps)) = running ps.
Proof.
  revert i. induction ps as [|p ps IH]; intros i Hi; [done|].
  destruct i as [|i]; simpl in *.
  - by injection Hi as ->.
  - destruct p; simpl; rewrite <- (IH i Hi); reflexivity.
Qed.

Lemma start_balanced n : balanced (start n).
Proof. unfold balanced, live, start. simpl. by rewrite running_waiting. Qed.

Lemma fire_balanced ev st st' :
  balanced st → fire ev st = Some st' → balanced st'.
Proof.
  unfold balanced, live. intros Hbal Hfire. destruct ev as [i|i]; simpl in Hfire.
  - destruct (tasks st !! i) as [[]|] eqn:Hi; try discriminate.
    destruct (Nat.ltb_spec 0 (value st)) as [Hpos|]; [|discriminate].
    injection Hfire as <-. simpl. rewrite (running_enter _ _ Hi). lia.
  - destruct (tasks st !! i) as [[]|] eqn:Hi; try discriminate.
    injection Hfire as <-. simpl. pose proof (running_exit _ _ Hi). lia.
Qed.

Lemma play_balanced schedule st st' :
  balanced st → play schedule st = Some st' → balanced st'.
Proof.
  revert st. induction schedule as [|ev schedule IH]; intros st Hbal Hplay; simpl in Hplay.
  - by injection Hplay as <-.
  - destruct (fire ev st) as [st1|] eqn:Hfire; [|discriminate].
    eapply IH; [|exact Hplay]. by eapply fire_balanced.
Qed.

(** C9. However many tasks are dispatched and however the event loop
    interleaves them, in every state that a run can be in at most three
    tasks are inside their specialist's [run]. *)
Theorem gate_admits_at_most_three (n : nat) (schedule : list event) (st : state) :
  play schedule (start n) = Some st →
  (live st ≤ 3)%nat.
Proof.
  intros Hplay.
  pose proof (play_balanced _ _ _ (start_balanced n) Hplay) as Hbal.
  unfold balanced, capacity in Hbal. lia.
Qed.

Lemma gate_admits_at_most_three_witness :
  (live {| value := 0; tasks := [Running; Settled; Running; Waiting; Running; Waiting] |}
   ≤ 3)%nat.
Proof.
  apply (gate_admits_at_most_three 6 [Enter 0; Enter 1; Enter 2; Exit 1; Enter 4]).
  reflexivity.
Defined.

End GateClaims.


(** * Further properties of the code *)

(** ** Strings and code translation *)

Section Strings.

Lemma string_length_app (a b : string) :
  String.length (a ++ b) = (String.length a + String.length b)%nat.
Proof. induction a as [|c a IH]; simpl; [reflexivity | by rewrite IH]. Qed.

Lemma string_app_inj_tail (a b s t : string) :
  String.length s = String.length t → a ++ s = b ++ t → a = b.
Proof.
  revert b. induction a as [|c a IH]; intros [|d b] Hlen Heq; simpl in *.
  - reflexivity.
  - apply (f_equal String.length) in Heq.
    rewrite !string_length_app in Heq. simpl in Heq. lia.
  - apply (f_equal String.length) in Heq.
    rewrite !string_length_app in Heq. simpl in Heq. lia.
  - injection Heq as -> Heq. f_equal. by apply IH.
Qed.

Lemma ts_suffix_length m : String.length (ts_suffix m) = 3.
Proof. by destruct m. Qed.

Lemma rq_suffix_length m : String.length (rq_suffix m) = 5.
Proof. by destruct m. Qed.

Lemma split_head_app (c : ascii) (a b : string) :
  mentions c a = false → split_head c (a ++ String c b) = a.
Proof.
  induction a as [|d a IH]; simpl.
  - intros _. by rewrite Ascii.eqb_refl.
  - intros H. apply orb_false_iff in H as [Hd Ha]. rewrite Hd. f_equal. by apply IH.
Qed.

Lemma strip_ts_code (stock_code : string) :
  mentions "." stock_code = false →
  split_head "." (Tushare._convert_to_ts_code stock_code) = stock_code.
Proof.
  intros Hdot. rewrite ts_code_by_leading.
  destruct (market_of_leading (leading stock_code)); by apply split_head_app.
Qed.

Lemma strip_rq_code (stock_code : string) :
  mentions "." stock_code = false →
  split_head "." (RQData._convert_to_rq_code stock_code) = stock_code.
Proof.
  intros Hdot. rewrite rq_code_by_leading.
  destruct (market_of_leading (leading stock_code)); by apply split_head_app.
Qed.

Lemma ts_code_inj (code1 code2 : string) :
  Tushare._convert_to_ts_code code1 = Tushare._convert_to_ts_code code2 → code1 = code2.
Proof.
  rewrite !ts_code_by_leading. apply string_app_inj_tail. by rewrite !ts_suffix_length.
Qed.

(** X1. Translating a canonical code and taking the part before the first
    dot, as the quote operations do, gives the code back, for a code without
    a dot; so for both backends. *)
Theorem translate_then_strip (stock_code : string) :
  mentions "." stock_code = false →
  split_head "." (Tushare._convert_to_ts_code stock_code) = stock_code
  ∧ split_head "." (RQData._convert_to_rq_code stock_code) = stock_code.
Proof.
  intros Hdot. split; [by apply strip_ts_code | by apply strip_rq_code].
Qed.

Lemma translate_then_strip_witness :
  split_head "." (Tushare._convert_to_ts_code "600519") = "600519"
  ∧ split_head "." (RQData._convert_to_rq_code "600519") = "600519".
Proof. apply (translate_then_strip "600519"). reflexivity. Defined.

(** X2. Neither translator maps two canonical codes to the same backend
    code. *)
Theorem translation_is_injective (code1 code2 : string) :
  (Tushare._convert_to_ts_code code1 = Tushare._convert_to_ts_code code2 → code1 = code2)
  ∧ (RQData._convert_to_rq_code code1 = RQData._convert_to_rq_code code2 → code1 = code2).
Proof.
  split; [apply ts_code_inj|].
  rewrite !rq_code_by_leading. apply string_app_inj_tail. by rewrite !rq_suffix_length.
Qed.

Lemma translation_is_injective_witness :
  Tushare._convert_to_ts_code "600519" ≠ Tushare._convert_to_ts_code "000001".
Proof.
  intros H. apply (proj1 (translation_is_injective "600519" "000001")) in H.
  discriminate H.
Defined.

Lemma remove_char_clean (c : ascii) (s : string) :
  mentions c s = false → remove_char c s = s.
Proof.
  induction s as [|a s IH]; simpl; [done|].
  intros H. apply orb_false_iff in H as [Ha Hs]. rewrite Ha. f_equal. by apply IH.
Qed.

Lemma remove_char_mentions (c : ascii) (s : string) :
  mentions c (remove_char c s) = false.
Proof.
  induction s as [|a s IH]; simpl; [done|].
  destruct (Ascii.eqb a c) eqn:Ha; [exact IH|]. simpl. by rewrite Ha, IH.
Qed.

Lemma remove_char_idemp (c : ascii) (s : string) :
  remove_char c (remove_char c s) = remove_char c s.
Proof. apply remove_char_clean, remove_char_mentions. Qed.

(** X3. For daily bars, akshare and tushare are asked with dates that hold
    no dash, and a date with dashes gives the same result as the date
    without them. *)
Theorem daily_bars_ignore_dashes (w : World) (code d1 d2 : string) :
  mentions "-" (remove_char "-" d1) = false
  ∧ mentions "-" (remove_char "-" d2) = false
  ∧ (∀ self, get_daily_market_data w (AkshareProvider self) code
               (remove_char "-" d1) (remove_char "-" d2)
             = get_daily_market_data w (AkshareProvider self) code d1 d2)
  ∧ (∀ self, get_daily_market_data w (TushareProvider self) code
               (remove_char "-" d1) (remove_char "-" d2)
             = get_daily_market_data w (TushareProvider self) code d1 d2).
Proof.
  split; [apply remove_char_mentions|]. split; [apply remove_char_mentions|].
  split; intros self; simpl;
    unfold Akshare.get_daily_market_data, Tushare.get_daily_market_data;
    by rewrite !remove_char_idemp.
Qed.

Example dashed_date : remove_char "-" "2025-01-31" = "20250131".
Proof. reflexivity. Qed.

End Strings.

(** ** What the providers make of a frame *)

Section Frames.

Lemma df_not_empty (df : DataFrame) l row c :
  (l, row) ∈ df → is_Some (row !! c) → df_empty df = false.
Proof.
  intros Hin [v Hv]. destruct (df_empty df) eqn:Hempty; [|done].
  unfold df_empty in Hempty. rewrite forallb_forall in Hempty.
  specialize (Hempty (l, row) (proj1 (list_elem_of_In _ _) Hin)).
  apply bool_decide_eq_true_1 in Hempty. simpl in Hempty.
  rewrite Hempty, lookup_empty in Hv. discriminate.
Qed.



Lemma last_row_keyed_Some key k df row :
  last_row_keyed key k df = Some row →
  ∃ label, (label, row) ∈ df ∧ key label row = Some k.
Proof.
  induction df as [|[label r] df IH]; simpl; [done|].
  destruct (last_row_keyed key k df) as [later|].
  - intros [= ->]. destruct IH as (l & Hin & Hk); [done|].
    exists l. split; [by right | done].
  - case_bool_decide as Hk; [|done]. intros [= ->].
    exists label. split; [by left | done].
Qed.

Lemma last_row_keyed_None key k df :
  last_row_keyed key k df = None ↔ ∀ label row, (label, row) ∈ df → key label row ≠ Some k.
Proof.
  induction df as [|[label r] df IH]; simpl.
  - split; [|done]. intros _ l r Hin. by apply elem_of_nil in Hin.
  - destruct (last_row_keyed key k df) as [later|].
    + split; [done|]. intros H. exfalso.
      assert (Some later = None) as Hno; [|done].
      apply IH. intros l r' Hin. apply H. by right.
    + case_bool_decide as Hk.
      * split; [done|]. intros H. by destruct (H label r (list_elem_of_here _ _)).
      * split; [|done]. intros _ l r' Hin.
        apply elem_of_cons in Hin as [[= -> ->]|Hin]; [done|].
        by apply (proj1 IH eq_refl l r').
Qed.

(** The loop over the rows, when every row has a key: the map holds, under
    each key, the last row with that key, over what it held before. *)
Lemma quotes_by_lookup key key' df :
  (∀ label row, (label, row) ∈ df →
     ∃ k, key label row = Returns k ∧ key' label row = Some k) →
  ∀ quotes, ∃ q,
    quotes_by key df quotes = Returns q
    ∧ ∀ k, q !! k = match last_row_keyed key' k df with
                     | Some row => Some row
                     | None => quotes !! k
                     end.
Proof.
  induction df as [|[label row] df IH]; intros Hkey quotes; simpl.
  - by exists quotes.
  - destruct (Hkey label row) as (k0 & Hk0 & Hk0'); [by left|].
    rewrite Hk0. simpl.
    destruct (IH (fun l r Hin => Hkey l r (list_elem_of_further _ _ _ Hin))
                 (<[k0 := row]> quotes)) as (q & Hq & Hlook).
    exists q. split; [exact Hq|]. intros k. rewrite Hlook.
    destruct (last_row_keyed key' k df) as [later|]; [done|].
    rewrite Hk0'. case_bool_decide as Hk.
    + injection Hk as ->. apply lookup_insert_eq.
    + apply lookup_insert_ne. congruence.
Qed.


Lemma column_cells df c vs :
  column df c = Returns vs → cells c df = map Some vs.
Proof.
  revert vs. induction df as [|[label row] df IH]; intros vs; simpl.
  - by intros [= <-].
  - unfold getitem. destruct (row !! c) as [v|] eqn:Hv; simpl; [|done].
    destruct (column df c) as [vs'|] eqn:Hvs; simpl; [|done].
    intros [= <-]. simpl. f_equal. by apply IH.
Qed.

Lemma column_total df c :
  (∀ label row, (label, row) ∈ df → is_Some (row !! c)) →
  ∃ vs, column df c = Returns vs.
Proof.
  induction df as [|[label row] df IH]; intros Hall; simpl; [eauto|].
  destruct (Hall label row) as [v Hv]; [by left|].
  unfold getitem. rewrite Hv. simpl.
  destruct IH as [vs ->]; [intros l r Hin; apply (Hall l r); by right|].
  simpl. eauto.
Qed.


(** [dict(zip(df['item'], df['value']))], read row by row. *)
Lemma dict_of_columns df items values (acc : gmap string string) k :
  cells "item" df = map Some items →
  cells "value" df = map Some values →
  foldl (fun d kv => <[kv.1 := kv.2]> d) acc (zip items values) !! k
  = match last_row_keyed (fun _ row => row !! "item") k df with
    | Some row => row !! "value"
    | None => acc !! k
    end.
Proof.
  revert items values acc.
  induction df as [|[label row] df IH]; intros [|i items] [|v values] acc; simpl;
    try done.
  intros [= Hi Hitems] [= Hv Hvalues].
  rewrite (IH items values) by done.
  destruct (last_row_keyed _ k df) as [later|]; [done|].
  rewrite Hi. case_bool_decide as Hk.
  - injection Hk as ->. by rewrite lookup_insert_eq.
  - rewrite lookup_insert_ne by congruence. done.
Qed.

(** X4. akshare basic info: when the service returns a frame with rows that
    all have the columns item and value, the result is a dict that gives, for
    each item, the value of the last row with that item, and nothing for
    other keys. *)
Theorem akshare_basic_info_last_row_wins
    (w : World) (self : Akshare.t) (stock_code : string) (df : DataFrame) :
  ak_stock_individual_info_em w stock_code = Returns df →
  df ≠ [] →
  (∀ label row, (label, row) ∈ df →
     is_Some (row !! "item") ∧ is_Some (row !! "value")) →
  ∃ info,
    get_stock_basic_info w (AkshareProvider self) stock_code = Some info
    ∧ ∀ k, info !! k
           = last_row_keyed (fun _ row => row !! "item") k df ≫= (.!! "value").
Proof.
  intros Hcall Hne Hcols. simpl. unfold Akshare.get_stock_basic_info.
  rewrite Hcall. simpl.
  destruct df as [|[l0 r0] df]; [done|].
  rewrite (df_not_empty _ l0 r0 "item") by (by left || by apply (Hcols l0 r0); left).
  set (frame := (l0, r0) :: df) in *.
  destruct (column_total frame "item") as [items Hitems];
    [intros l r Hin; by apply (Hcols l r)|].
  destruct (column_total frame "value") as [values Hvalues];
    [intros l r Hin; by apply (Hcols l r)|].
  rewrite Hitems. cbn [obind]. rewrite Hvalues. cbn [obind try_except].
  eexists. split; [reflexivity|]. intros k. unfold dict_of_items.
  rewrite (dict_of_columns frame items values ∅ k)
    by (by apply column_cells).
  destruct (last_row_keyed _ k frame); [done|]. apply lookup_empty.
Qed.

Lemma akshare_basic_info_last_row_wins_witness :
  ∃ info,
    get_stock_basic_info listed (AkshareProvider Akshare.Make) "600519" = Some info
    ∧ ∀ k, info !! k
           = last_row_keyed (fun _ row => row !! "item") k
               [ (LInt 0, {[ "item" := "name"; "value" := "Kweichow Moutai" ]});
                 (LInt 1, {[ "item" := "industry"; "value" := "liquor" ]}) ]
             ≫= (.!! "value").
Proof.
  apply (akshare_basic_info_last_row_wins listed Akshare.Make "600519").
  - reflexivity.
  - discriminate.
  - intros label row Hin.
    repeat (apply elem_of_cons in Hin as [[= -> ->]|Hin]; [vm_compute; eauto|]).
    by apply elem_of_nil in Hin.
Defined.





(** A frame with rows and no column is empty, and every provider answers
    [None] to it. *)
Example frames_without_columns :
  get_stock_basic_info blank (AkshareProvider Akshare.Make) "600519" = None
  ∧ get_stock_basic_info blank (TushareProvider (Tushare.Make "tok")) "600519" = None
  ∧ get_real_time_quotes blank (AkshareProvider Akshare.Make) (inl "600519") = None
  ∧ get_real_time_quotes blank (TushareProvider (Tushare.Make "tok")) (inl "600519") = None
  ∧ get_real_time_quotes blank (RQDataProvider RQData.Make) (inl "600519") = None.
Proof. repeat split; vm_compute; reflexivity. Qed.



Example rqdata_later_row_wins :
  get_real_time_quotes malformed (RQDataProvider RQData.Make) (inl "600519")
  = Some {[ "600519" := {[ "last" := "1501" ]}; "000001" := {[ "last" := "11" ]} ]}.
Proof. vm_compute. reflexivity. Qed.

Lemma cells_rows c df (vs : list (option string)) :
  cells c df = vs →
  ∀ label row, (label, row) ∈ df → row !! c ∈ vs.
Proof.
  intros <- label row Hin. unfold cells.
  apply list_elem_of_In, in_map_iff. exists (label, row).
  split; [done|]. by apply list_elem_of_In.
Qed.

(** X8. tushare quotes: when the service answers with one row per requested
    code, its [ts_code] cell being the translated code, and the codes hold no
    dot, the result is keyed by exactly the canonical codes that were asked
    for, and under each code is a row of that code. *)
Theorem tushare_quotes_keyed_by_canonical_code
    (w : World) (self : Tushare.t) (codes : list string) (df : DataFrame) :
  Forall (fun code => mentions "." code = false) codes →
  pro_daily_basic w (Tushare.pro self)
    (join "," (map Tushare._convert_to_ts_code codes)) = Returns df →
  df ≠ [] →
  cells "ts_code" df = map (fun code => Some (Tushare._convert_to_ts_code code)) codes →
  ∃ q,
    get_real_time_quotes w (TushareProvider self) (inr codes) = Some q
    ∧ dom q = list_to_set codes
    ∧ ∀ code row,
        q !! code = Some row →
        row !! "ts_code" = Some (Tushare._convert_to_ts_code code).
Proof.
  intros Hdots Hcall Hne Hcells. simpl. unfold Tushare.get_real_time_quotes.
  simpl as_list. rewrite Hcall. simpl.
  destruct df as [|[l0 r0] df]; [done|].
  set (frame := (l0, r0) :: df) in *.
  assert (df_empty frame = false) as ->.
  { apply (df_not_empty _ l0 r0 "ts_code"); [by left|].
    assert (r0 !! "ts_code" ∈ cells "ts_code" frame) as Hcell by (by left).
    rewrite Hcells in Hcell.
    apply list_elem_of_In, in_map_iff in Hcell as (code & <- & _). eauto. }
  set (key' := fun (_ : label) (row : Row) => split_head "." <$> row !! "ts_code").
  assert (Hrow : ∀ label row, (label, row) ∈ frame →
            ∃ code, code ∈ codes
                    ∧ row !! "ts_code" = Some (Tushare._convert_to_ts_code code)
                    ∧ key' label row = Some code).
  { intros label row Hin.
    pose proof (cells_rows _ _ _ Hcells label row Hin) as Hcell.
    apply list_elem_of_In, in_map_iff in Hcell as (code & Hcode & Hin').
    apply list_elem_of_In in Hin'. exists code. split; [done|].
    split; [done|]. unfold key'. rewrite <- Hcode. simpl. f_equal.
    apply strip_ts_code. by apply (proj1 (Forall_forall _ _) Hdots). }
  destruct (quotes_by_lookup
              (fun _ row => let* ts_code := getitem row "ts_code" in
                            Returns (split_head "." ts_code))
              key' frame) with (quotes := ∅ : gmap string Row)
    as (q & Hq & Hlook).
  { intros label row Hin. destruct (Hrow label row Hin) as (code & _ & Hts & Hk).
    exists code. split; [|done]. unfold getitem. rewrite Hts. simpl. f_equal.
    apply strip_ts_code.
    unfold key' in Hk. rewrite Hts in Hk. simpl in Hk.
    destruct (Hrow label row Hin) as (code' & Hin' & Hts' & _).
    rewrite Hts in Hts'. injection Hts' as Heq.
    apply ts_code_inj in Heq. subst code'.
    by apply (proj1 (Forall_forall _ _) Hdots). }
  rewrite Hq. simpl. exists q. split; [done|]. split.
  - apply set_eq. intros k. rewrite elem_of_dom, Hlook, elem_of_list_to_set. split.
    + intros [row Hk]. destruct (last_row_keyed key' k frame) as [r|] eqn:Hlast;
        [|by rewrite lookup_empty in Hk].
      apply last_row_keyed_Some in Hlast as (label & Hin & Hkey).
      destruct (Hrow label r Hin) as (code & Hcode & _ & Hkey'). congruence.
    + intros Hk. destruct (last_row_keyed key' k frame) as [r|] eqn:Hlast; [eauto|].
      exfalso. rewrite last_row_keyed_None in Hlast.
      assert (Some (Tushare._convert_to_ts_code k) ∈ cells "ts_code" frame) as Hcell.
      { rewrite Hcells. apply list_elem_of_In, in_map_iff. exists k.
        split; [done|]. by apply list_elem_of_In. }
      apply list_elem_of_In, in_map_iff in Hcell as ([label row] & Hts & Hin).
      apply list_elem_of_In in Hin. apply (Hlast label row Hin).
      unfold key'. simpl in Hts. rewrite Hts. simpl. f_equal.
      apply strip_ts_code. by apply (proj1 (Forall_forall _ _) Hdots).
  - intros code row Hk. rewrite Hlook in Hk.
    destruct (last_row_keyed key' code frame) as [r|] eqn:Hlast;
      [|by rewrite lookup_empty in Hk].
    injection Hk as ->.
    apply last_row_keyed_Some in Hlast as (label & Hin & Hkey).
    destruct (Hrow label row Hin) as (code' & _ & Hts & Hkey'). congruence.
Qed.

Lemma tushare_quotes_keyed_by_canonical_code_witness :
  ∃ q,
    get_real_time_quotes quoting (TushareProvider (Tushare.Make "tok"))
      (inr ["600519"; "000001"]) = Some q
    ∧ dom q = list_to_set ["600519"; "000001"]
    ∧ ∀ code row,
        q !! code = Some row →
        row !! "ts_code" = Some (Tushare._convert_to_ts_code code).
Proof.
  apply (tushare_quotes_keyed_by_canonical_code quoting (Tushare.Make "tok")
           ["600519"; "000001"]
           [ (LInt 0, {[ "ts_code" := "600519.SH"; "close" := "1500" ]});
             (LInt 1, {[ "ts_code" := "000001.SZ"; "close" := "11" ]}) ]).
  - repeat constructor.
  - reflexivity.
  - discriminate.
  - vm_compute. reflexivity.
Defined.



(** X10. akshare quotes: when every row has the code column, the result is
    keyed by the cells of that column as they are (no suffix is cut), and
    under a key is the last row with that key. *)
Theorem akshare_quotes_keyed_by_code_cell
    (w : World) (self : Akshare.t) (stock_codes : string + list string) (df : DataFrame) :
  ak_stock_zh_a_spot_em w (join "," (as_list stock_codes)) = Returns df →
  df ≠ [] →
  (∀ label row, (label, row) ∈ df → is_Some (row !! "代码")) →
  ∃ q,
    get_real_time_quotes w (AkshareProvider self) stock_codes = Some q
    ∧ ∀ k, q !! k = last_row_keyed (fun _ row => row !! "代码") k df.
Proof.
  intros Hcall Hne Hcol. simpl. unfold Akshare.get_real_time_quotes.
  rewrite Hcall. simpl. destruct df as [|[l0 r0] df]; [done|].
  set (frame := (l0, r0) :: df) in *.
  rewrite (df_not_empty frame l0 r0 "代码") by (by left || by apply (Hcol l0 r0); left).
  destruct (quotes_by_lookup (fun _ row => getitem row "代码")
              (fun _ row => row !! "代码") frame) with (quotes := ∅ : gmap string Row)
    as (q & Hq & Hlook).
  { intros l row Hin. destruct (Hcol l row Hin) as [v Hv].
    exists v. unfold getitem. by rewrite Hv. }
  rewrite Hq. cbn [obind try_except]. exists q. split; [reflexivity|].
  intros k. rewrite Hlook.
  destruct (last_row_keyed _ k frame); [reflexivity|]. apply lookup_empty.
Qed.

Lemma akshare_quotes_keyed_by_code_cell_witness :
  ∃ q,
    get_real_time_quotes quoting (AkshareProvider Akshare.Make)
      (inr ["600519"; "000001"]) = Some q
    ∧ ∀ k, q !! k
           = last_row_keyed (fun _ row => row !! "代码") k
               [ (LInt 0, {[ "代码" := "600519"; "最新价" := "1500" ]});
                 (LInt 1, {[ "代码" := "000001"; "最新价" := "11" ]}) ].
Proof.
  apply (akshare_quotes_keyed_by_code_cell quoting Akshare.Make
           (inr ["600519"; "000001"])).
  - reflexivity.
  - discriminate.
  - intros label row Hin.
    repeat (apply elem_of_cons in Hin as [[= -> ->]|Hin]; [vm_compute; eauto|]).
    by apply elem_of_nil in Hin.
Defined.

End Frames.

(** ** The selector and the basic-info tool *)

Section SelectorAndTool.
Import StockInfoRequest.

Lemma try_tushare_unconfigured w cfg s :
  tushare_unconfigured cfg → try_tushare w cfg s = (None, s).
Proof.
  unfold tushare_unconfigured, try_tushare. intros [H|H].
  - by rewrite H.
  - rewrite H. by rewrite bool_decide_eq_true_2, andb_false_r.
Qed.

Lemma try_rqdata_unconfigured w cfg s :
  rqdata_unconfigured cfg → try_rqdata w cfg s = (None, s).
Proof.
  unfold rqdata_unconfigured, try_rqdata. intros [H|H]; rewrite H.
  - done.
  - by rewrite andb_false_r.
Qed.

(** The calls of one attempt, with what the credentials exclude. *)
Lemma attempt_calls w cfg b attempt (idle : Prop) s :
  attempts w cfg b attempt →
  (idle → attempt s = (None, s)) →
  ∃ r s' made,
    attempt s = (r, s')
    ∧ calls s' = (calls s ++ made)%list
    ∧ Forall (fun c => backend_of c = b) made
    ∧ (idle → made = [])
    ∧ (r = None → available w cfg b = false).
Proof.
  intros Hatt Hidle.
  destruct (Hatt s) as (r & s' & made & Hrun & _ & Hcalls & Hmade & Hr).
  exists r, s', made. repeat split; try done.
  - intros H. rewrite (Hidle H) in Hrun. injection Hrun as <- <-.
    rewrite <- (app_nil_r (calls s)) in Hcalls at 1.
    by apply app_inv_head in Hcalls.
  - intros ->. exact Hr.
Qed.

Lemma por_run a b s :
  por a b s = (let (x, s1) := a s in match x with Some _ => (x, s1) | None => b s1 end).
Proof. unfold por, bind. destruct (a s) as [[x|] s1]; reflexivity. Qed.

Lemma finish_calls name attempt s found s1 r s' :
  attempt s = (found, s1) →
  finish name attempt s = (r, s') →
  calls s' = calls s1.
Proof.
  intros Hatt. unfold finish, bind. rewrite Hatt. simpl.
  destruct found; unfold ret; intros [= <- <-]; reflexivity.
Qed.

(** All that a selection can call, mode by mode: backend 1 first, then
    backend 2, then backend 3, and none that the credentials exclude. *)
Lemma resolve_calls w cfg s r s' :
  resolve w cfg s = (r, s') →
  ∃ m1 m2 m3,
    calls s' = (calls s ++ m1 ++ m2 ++ m3)%list
    ∧ Forall (fun c => backend_of c = tushare) m1
    ∧ Forall (fun c => backend_of c = rqdata) m2
    ∧ Forall (fun c => backend_of c = akshare) m3
    ∧ (tushare_unconfigured cfg → m1 = [])
    ∧ (rqdata_unconfigured cfg → m2 = []).
Proof.
  pose proof (fun s => attempt_calls w cfg tushare (try_tushare w cfg)
                         (tushare_unconfigured cfg) s (try_tushare_attempts w cfg)
                         (try_tushare_unconfigured w cfg s)) as Ht.
  pose proof (fun s => attempt_calls w cfg rqdata (try_rqdata w cfg)
                         (rqdata_unconfigured cfg) s (try_rqdata_attempts w cfg)
                         (try_rqdata_unconfigured w cfg s)) as Hr.
  pose proof (fun s => attempt_calls w cfg akshare (some try_akshare)
                         False s (try_akshare_attempts w cfg)
                         (fun H : False => match H with end)) as Ha.
  unfold resolve.
  destruct (String.eqb (provider cfg) "auto").
  { intros Hfin.
    destruct (Ht s) as (r1 & s1 & m1 & E1 & Hc1 & Hm1 & Hi1 & _).
    destruct r1 as [inst|].
    - rewrite (finish_calls _ _ _ (Some inst) s1 _ _) in * by first
        [ by rewrite por_run, E1 | exact Hfin ].
      exists m1, [], []. rewrite !app_nil_r. auto 10.
    - destruct (Hr s1) as (r2 & s2 & m2 & E2 & Hc2 & Hm2 & Hi2 & _).
      destruct r2 as [inst|].
      + rewrite (finish_calls _ _ _ (Some inst) s2 _ _) in * by first
          [ by rewrite por_run, E1, por_run, E2 | exact Hfin ].
        exists m1, m2, []. rewrite app_nil_r, Hc2, Hc1, <- app_assoc. auto 10.
      + destruct (Ha s2) as (r3 & s3 & m3 & E3 & Hc3 & Hm3 & _ & _).
        rewrite (finish_calls _ _ _ r3 s3 _ _) in * by first
          [ by rewrite por_run, E1, por_run, E2, E3; destruct r3 | exact Hfin ].
        exists m1, m2, m3. rewrite Hc3, Hc2, Hc1, <- !app_assoc. auto 10. }
  destruct (String.eqb (provider cfg) "tushare").
  { intros Hfin. destruct (Ht s) as (r1 & s1 & m1 & E1 & Hc1 & Hm1 & Hi1 & _).
    rewrite (finish_calls _ _ _ _ _ _ _ E1 Hfin).
    exists m1, [], []. rewrite !app_nil_r. auto 10. }
  destruct (String.eqb (provider cfg) "rqdata").
  { intros Hfin. destruct (Hr s) as (r2 & s2 & m2 & E2 & Hc2 & Hm2 & Hi2 & _).
    rewrite (finish_calls _ _ _ _ _ _ _ E2 Hfin).
    exists [], m2, []. rewrite app_nil_r. simpl. auto 10. }
  destruct (String.eqb (provider cfg) "akshare").
  { intros Hfin. destruct (Ha s) as (r3 & s3 & m3 & E3 & Hc3 & Hm3 & _ & _).
    rewrite (finish_calls _ _ _ _ _ _ _ E3 Hfin).
    exists [], [], m3. simpl. auto 10. }
  unfold ret. intros [= <- <-]. exists [], [], []. simpl. rewrite app_nil_r. auto 10.
Qed.

(** X11. Whatever the mode and the state of the cache, a call of the
    selector makes no call to backend 1 when the token is missing, empty or
    the placeholder, and none to backend 2 when the username or the password
    is missing or empty. *)
Theorem unconfigured_backend_is_not_called
    (w : World) (cfg : DataProviderConfig) (s : Process)
    (r : outcome Object) (s' : Process) :
  get_data_provider w cfg s = (r, s') →
  ∃ made,
    calls s' = (calls s ++ made)%list
    ∧ (tushare_unconfigured cfg → Forall (fun c => backend_of c ≠ tushare) made)
    ∧ (rqdata_unconfigured cfg → Forall (fun c => backend_of c ≠ rqdata) made).
Proof.
  unfold get_data_provider. destruct (_provider_instance s) as [inst|].
  - intros [= <- <-]. exists []. rewrite app_nil_r. by repeat split.
  - intros Hres.
    destruct (resolve_calls _ _ _ _ _ Hres) as (m1 & m2 & m3 & -> & H1 & H2 & H3 & Hi1 & Hi2).
    exists (m1 ++ m2 ++ m3)%list. split; [done|]. split.
    + intros Hun. rewrite (Hi1 Hun). simpl. apply Forall_app. split.
      * eapply Forall_impl; [exact H2|]. intros c ->. done.
      * eapply Forall_impl; [exact H3|]. intros c ->. done.
    + intros Hun. rewrite (Hi2 Hun). simpl. apply Forall_app. split.
      * eapply Forall_impl; [exact H1|]. intros c ->. done.
      * eapply Forall_impl; [exact H3|]. intros c ->. done.
Qed.

Lemma unconfigured_backend_is_not_called_witness :
  ∃ made,
    [RQDataInit "user" "secret"] = ([] ++ made)%list
    ∧ (tushare_unconfigured (settings "auto" (Some "invalid_token") (Some "user") (Some "secret"))
       → Forall (fun c => backend_of c ≠ tushare) made)
    ∧ (rqdata_unconfigured (settings "auto" (Some "invalid_token") (Some "user") (Some "secret"))
       → Forall (fun c => backend_of c ≠ rqdata) made).
Proof.
  apply (unconfigured_backend_is_not_called no_data
           (settings "auto" (Some "invalid_token") (Some "user") (Some "secret"))
           fresh_process
           (Returns {| oid := 0; obj := RQDataProvider RQData.Make |})
           {| _provider_instance := Some {| oid := 0; obj := RQDataProvider RQData.Make |};
              next_oid := 1; calls := [RQDataInit "user" "secret"] |}).
  reflexivity.
Defined.

(** The exceptions of the selector. *)
Lemma selector_exception w cfg s e s' :
  get_data_provider w cfg s = (Raises e, s') →
  ((provider cfg ∉ ["auto"; "tushare"; "rqdata"; "akshare"])
   ∧ e = Exn ValueError ("Unknown data provider: " ++ provider cfg)
   ∧ s' = s)
  ∨ (provider cfg ∈ ["tushare"; "rqdata"]
     ∧ e = Exn RuntimeError ("Could not initialize data provider: " ++ provider cfg)).
Proof.
  unfold get_data_provider. destruct (_provider_instance s) as [inst|]; [done|].
  unfold resolve.
  destruct (String.eqb_spec (provider cfg) "auto") as [Hauto|Hauto].
  { unfold finish, bind.
    destruct (auto_chain_attempts w cfg s) as (inst & s1 & ? & ? & ? & -> & _). done. }
  destruct (String.eqb_spec (provider cfg) "tushare") as [Hts|Hts].
  { unfold finish, bind. destruct (try_tushare w cfg s) as [[inst|] s1]; simpl; [done|].
    intros [= <- <-]. right. rewrite Hts. split; [set_solver | done]. }
  destruct (String.eqb_spec (provider cfg) "rqdata") as [Hrq|Hrq].
  { unfold finish, bind. destruct (try_rqdata w cfg s) as [[inst|] s1]; simpl; [done|].
    intros [= <- <-]. right. rewrite Hrq. split; [set_solver | done]. }
  destruct (String.eqb_spec (provider cfg) "akshare") as [Hak|Hak].
  { unfold finish, some, try_akshare, bind, call, new, ret. simpl. done. }
  unfold ret. intros [= <- <-]. left. split; [|done].
  intros Hin. repeat (apply elem_of_cons in Hin as [Hin|Hin]; [done|]).
  by apply elem_of_nil in Hin.
Qed.






End SelectorAndTool.

Section Tool.
Import StockInfoRequest StockInfoResponseProperties.

Lemma handle_is_failure e :
  truthy (error (handle e)) = true ∧ output (handle e) = ∅.
Proof. unfold handle. by destruct (exn_cls e). Qed.

(** X13. A response of the basic-info tool has either an error, which is
    not the empty string, and an empty output, its two properties giving
    their defaults; or no error and an output with the trading day and the
    basic info exactly as the calendar and the provider gave them. *)
Theorem execute_error_or_output
    (w : World) (cfg : DataProviderConfig) (stock_code : string) (s : Process) :
  let r := (execute w cfg stock_code s).1 in
  (truthy (error r) = true
   ∧ output r = ∅
   ∧ current_trading_day r = PyStr ""
   ∧ basic_info r = PyDict ∅)
  ∨ (error r = None
     ∧ ∃ day inst info,
         get_recent_trading_day w = Returns day
         ∧ (get_data_provider w cfg s).1 = Returns inst
         ∧ get_stock_basic_info w (obj inst) stock_code = Some info
         ∧ current_trading_day r = PyStr day
         ∧ basic_info r = PyDict (PyStr <$> info)).
Proof.
  assert (Hfail : ∀ r, truthy (error r) = true ∧ output r = ∅ →
            truthy (error r) = true ∧ output r = ∅
            ∧ current_trading_day r = PyStr "" ∧ basic_info r = PyDict ∅).
  { intros r [Herr Hout]. unfold current_trading_day, basic_info.
    rewrite Hout, !lookup_empty. done. }
  unfold execute. destruct (get_recent_trading_day w) as [day|e].
  2:{ left. apply Hfail, handle_is_failure. }
  unfold bind. destruct (get_data_provider w cfg s) as [[inst|e] s1]; lazy beta iota zeta.
  2:{ left. apply Hfail, handle_is_failure. }
  destruct (get_stock_basic_info w (obj inst) stock_code) as [info|] eqn:Hinfo; simpl.
  2:{ left.
      exact (Hfail (failed "Failed to fetch stock basic info from any provider.")
               (conj eq_refl eq_refl)). }
  right. split; [done|]. exists day, inst, info.
  unfold current_trading_day, basic_info. simpl.
  rewrite lookup_insert_eq, lookup_insert_ne, lookup_singleton_eq by done. done.
Qed.

Example execute_listed :
  (execute listed (bare "auto") "600519" fresh_process).1
  = {| output := {[ "current_trading_day" := PyStr "2025-01-02";
                    "basic_info" := PyDict {[ "name" := PyStr "Kweichow Moutai";
                                              "industry" := PyStr "liquor" ]} ]};
       error := None |}.
Proof. vm_compute. reflexivity. Qed.

(** X14. When the calendar answers and the selector raises, the tool does
    not raise: it returns the error "Data provider configuration error: "
    followed by the message of the selector's exception, and leaves the
    process as the selector left it. *)
Theorem execute_reports_selector_failure
    (w : World) (cfg : DataProviderConfig) (stock_code day : string)
    (s : Process) (e : exn) (s' : Process) :
  get_recent_trading_day w = Returns day →
  get_data_provider w cfg s = (Raises e, s') →
  execute w cfg stock_code s
  = (failed ("Data provider configuration error: " ++ exn_str e), s').
Proof.
  intros Hday Hsel. unfold execute, bind. rewrite Hday, Hsel. unfold ret, handle.
  by destruct (selector_exception _ _ _ _ _ Hsel) as [(_ & -> & _)|(_ & ->)].
Qed.

Lemma execute_reports_selector_failure_witness :
  execute no_data (bare "wind") "600519" fresh_process
  = (failed ("Data provider configuration error: "
             ++ exn_str (Exn ValueError "Unknown data provider: wind")),
     fresh_process).
Proof.
  apply (execute_reports_selector_failure no_data (bare "wind") "600519" "2025-01-02");
    reflexivity.
Defined.

(** X15. Once a provider is cached, the tool goes to that provider whatever
    the settings say, and leaves the process as it is: the response does not
    depend on the settings any more. *)
Theorem execute_uses_cached_provider
    (w : World) (cfg1 cfg2 : DataProviderConfig) (stock_code : string)
    (s : Process) (inst : Object) :
  _provider_instance s = Some inst →
  execute w cfg1 stock_code s = execute w cfg2 stock_code s
  ∧ (execute w cfg1 stock_code s).2 = s
  ∧ (∀ day, get_recent_trading_day w = Returns day →
       error (execute w cfg1 stock_code s).1 = None
       ↔ is_Some (get_stock_basic_info w (obj inst) stock_code)).
Proof.
  intros Hc. unfold execute.
  destruct (get_recent_trading_day w) as [day|e].
  - unfold bind, get_data_provider. rewrite Hc. lazy beta iota zeta.
    destruct (get_stock_basic_info w (obj inst) stock_code) as [info|]; simpl.
    + repeat split; eauto.
    + repeat split; [done|]. by intros [? ?].
  - repeat split; intros; discriminate.
Qed.

Lemma execute_uses_cached_provider_witness :
  let inst := {| oid := 0; obj := AkshareProvider Akshare.Make |} in
  let s := {| _provider_instance := Some inst; next_oid := 1; calls := [AkshareInit] |} in
  execute listed (bare "akshare") "600519" s = execute listed (full "wind") "600519" s
  ∧ (execute listed (bare "akshare") "600519" s).2 = s
  ∧ (∀ day, get_recent_trading_day listed = Returns day →
       error (execute listed (bare "akshare") "600519" s).1 = None
       ↔ is_Some (get_stock_basic_info listed (obj inst) "600519")).
Proof.
  intros inst s.
  apply (execute_uses_cached_provider listed (bare "akshare") (full "wind") "600519" s inst).
  reflexivity.
Defined.

End Tool.

(** ** More on the orchestrator *)

Section OrchestratorMore.
Import StockInfoRequest Research.

Lemma dispatch_none mapping (registry : gmap string Agent) code :
  (∀ k, k ∈ mapping.*1 → registry !! k = None) →
  dispatch mapping registry code = [].
Proof.
  induction mapping as [|[ak rk] mapping IH]; intros Hnone; simpl; [done|].
  rewrite (Hnone ak) by (rewrite fmap_cons; by left).
  apply IH. intros k Hk. apply Hnone. rewrite fmap_cons. by right.
Qed.

Lemma dispatch_some mapping (registry : gmap string Agent) code k :
  k ∈ mapping.*1 → is_Some (registry !! k) →
  dispatch mapping registry code ≠ [].
Proof.
  induction mapping as [|[ak rk] mapping IH]; intros Hk Hreg; simpl.
  - by apply elem_of_nil in Hk.
  - destruct (registry !! ak) as [agent|] eqn:Hak; [done|].
    rewrite fmap_cons in Hk. apply elem_of_cons in Hk as [->|Hk].
    + simpl in Hreg. rewrite Hak in Hreg. by destruct Hreg.
    + by apply IH.
Qed.

Lemma dispatch_agree mapping (reg1 reg2 : gmap string Agent) code :
  (∀ k, k ∈ mapping.*1 → reg1 !! k = reg2 !! k) →
  dispatch mapping reg1 code = dispatch mapping reg2 code.
Proof.
  induction mapping as [|[ak rk] mapping IH]; intros Hagree; simpl; [done|].
  rewrite <- (Hagree ak) by (rewrite fmap_cons; by left).
  rewrite IH; [done|]. intros k Hk. apply Hagree. rewrite fmap_cons. by right.
Qed.

(** With a task to collect and an item to file it under, there is an
    entry. *)
Lemma collect_not_empty mapping task_results :
  mapping ≠ [] → task_results ≠ [] →
  dict_is_empty (collect mapping task_results) = false.
Proof.
  intros Hm Ht. unfold dict_is_empty. apply bool_decide_eq_false_2. intros Hsize.
  apply map_size_empty_iff in Hsize.
  pose proof (collect_dom mapping task_results) as Hdom.
  rewrite Hsize, dom_empty_L in Hdom.
  destruct mapping as [|[ak rk] mapping]; [done|].
  destruct task_results as [|r rs]; [done|].
  simpl in Hdom. set_solver.
Qed.

Lemma seed_context_lookup m keys (registry : gmap string Agent) k :
  NoDup keys →
  seed_context m keys registry !! k
  = if decide (k ∈ keys) then add_message m <$> registry !! k else registry !! k.
Proof.
  intros Hnd. revert registry. unfold seed_context.
  induction Hnd as [|key keys Hfresh Hnd IH]; intros registry; cbn [foldl].
  - by rewrite decide_False by apply not_elem_of_nil.
  - rewrite IH. unfold get_agent.
    destruct (decide (k = key)) as [->|Hne].
    + rewrite decide_False by done. rewrite decide_True by by left.
      destruct (registry !! key) as [agent|] eqn:Hkey.
      * by rewrite lookup_insert_eq.
      * by rewrite Hkey.
    + assert ((match registry !! key with
               | Some agent => <[key := add_message m agent]> registry
               | None => registry
               end) !! k = registry !! k) as ->.
      { destruct (registry !! key); [by rewrite lookup_insert_ne|done]. }
      destruct (decide (k ∈ keys)) as [Hin|Hnin].
      * rewrite decide_True by by right. done.
      * rewrite decide_False; [done|]. by intros [?|?]%elem_of_cons.
Qed.

Lemma seed_context_agree m keys (reg1 reg2 : gmap string Agent) (K : list string) :
  (∀ k, k ∈ keys → k ∈ K) →
  (∀ k, k ∈ K → reg1 !! k = reg2 !! k) →
  ∀ k, k ∈ K → seed_context m keys reg1 !! k = seed_context m keys reg2 !! k.
Proof.
  unfold seed_context.
  revert reg1 reg2. induction keys as [|key keys IH]; intros reg1 reg2 Hsub Hagree; [done|].
  cbn [foldl]. apply IH.
  - intros k Hk. apply Hsub. by right.
  - intros k Hk. unfold get_agent.
    rewrite <- (Hagree key) by (apply Hsub; by left).
    destruct (reg1 !! key) as [agent|]; [|by apply Hagree].
    destruct (decide (key = k)) as [->|Hne].
    + by rewrite !lookup_insert_eq.
    + rewrite !lookup_insert_ne by done. by apply Hagree.
Qed.

(** X16. [run] gives the object with [error] and [stock_code], and leaves
    the stored results as they were, when no specialist of the mapping is
    registered, be other specialists registered or not.  When one is, [run]
    stores what it returns, and what it returns has the stock code. *)
Theorem run_degenerate_or_stored
    (w : World) (cfg : DataProviderConfig) (self : ResearchEnvironment)
    (stock_code : string) (s : Process) :
  let res := (run w cfg self stock_code s).1.1 in
  let self' := (run w cfg self stock_code s).1.2 in
  ((∀ k, k ∈ (analysis_mapping self).*1 → agents self !! k = None) →
     res = {[ "error" := PyStr "No specialist agents completed successfully";
              "stock_code" := PyStr stock_code ]}
     ∧ results self' = results self)
  ∧ ((∃ k, k ∈ (analysis_mapping self).*1 ∧ is_Some (agents self !! k)) →
     results self' = res
     ∧ res !! "stock_code" = Some (PyStr stock_code)).
Proof.
  unfold run, bind. destruct (execute w cfg stock_code s) as [bir s1].
  set (registry := if truthy (error bir) then agents self else _).
  assert (Hsame : ∀ k, is_Some (registry !! k) ↔ is_Some (agents self !! k)).
  { intros k. subst registry. destruct (truthy (error bir)); [done|].
    apply seed_context_is_Some. }
  split.
  - intros Hnone. rewrite dispatch_none.
    + simpl gather. rewrite collect_no_results. done.
    + intros k Hk. apply eq_None_not_Some. rewrite Hsame, (Hnone k Hk).
      by intros [? ?].
  - intros (k & Hk & Hreg).
    rewrite collect_not_empty.
    + simpl. split; [done|]. apply lookup_insert_eq.
    + intros Hm. rewrite Hm in Hk. by apply elem_of_nil in Hk.
    + unfold gather. intros Hnil. apply map_eq_nil in Hnil.
      by apply (dispatch_some _ registry stock_code k Hk); [apply Hsame|].
Qed.

(** X17. When the basic-info fetch fails, [run] leaves every specialist as
    it was.  When it succeeds, every registered specialist of the mapping
    that has a memory gets one and the same message appended to it, once;
    its behaviour is untouched, and so are specialists without a memory and
    specialists outside the mapping. *)
Theorem run_seeds_each_context_once
    (w : World) (cfg : DataProviderConfig) (self : ResearchEnvironment)
    (stock_code : string) (s : Process) :
  NoDup (analysis_mapping self).*1 →
  let failed_fetch := truthy (error (execute w cfg stock_code s).1) in
  let self' := (run w cfg self stock_code s).1.2 in
  (failed_fetch = true → agents self' = agents self)
  ∧ (failed_fetch = false →
     ∃ m, msg_stock_code m = stock_code
       ∧ ∀ k, agents self' !! k
              = if decide (k ∈ (analysis_mapping self).*1)
                then add_message m <$> agents self !! k
                else agents self !! k)
  ∧ (∀ m agent,
       agent_run (add_message m agent) = agent_run agent
       ∧ memory (add_message m agent) = (fun msgs => msgs ++ [m])%list <$> memory agent).
Proof.
  intros Hnd. unfold run, bind. destruct (execute w cfg stock_code s) as [bir s1].
  cbn [fst]. split; [|split].
  - intros ->. by destruct (dict_is_empty _).
  - intros ->. eexists (system_message stock_code _ _). split; [reflexivity|].
    intros k. rewrite <- (seed_context_lookup _ _ _ _ Hnd).
    by destruct (dict_is_empty _).
  - intros m agent. unfold add_message.
    destruct (memory agent) as [msgs|] eqn:Hmem; simpl; [done|].
    by rewrite Hmem.
Qed.

Lemma default_keys_NoDup : NoDup default_analysis_mapping.*1.
Proof. apply (bool_decide_eq_true_1 _ (Decision0 := NoDup_dec _)). vm_compute. reflexivity. Qed.

Lemma run_seeds_each_context_once_witness :
  let failed_fetch := truthy (error (execute listed (bare "auto") "600519" fresh_process).1) in
  let self' := (run listed (bare "auto") six "600519" fresh_process).1.2 in
  (failed_fetch = true → agents self' = agents six)
  ∧ (failed_fetch = false →
     ∃ m, msg_stock_code m = "600519"
       ∧ ∀ k, agents self' !! k
              = if decide (k ∈ (analysis_mapping six).*1)
                then add_message m <$> agents six !! k
                else agents six !! k)
  ∧ (∀ m agent,
       agent_run (add_message m agent) = agent_run agent
       ∧ memory (add_message m agent) = (fun msgs => msgs ++ [m])%list <$> memory agent).
Proof.
  apply (run_seeds_each_context_once listed (bare "auto") six "600519" fresh_process).
  apply default_keys_NoDup.
Defined.

(** X18. A specialist that is registered under a key outside the mapping is
    never run: what [run] returns depends on the registry only through
    the keys of the mapping. *)
Theorem run_ignores_unmapped_specialists
    (w : World) (cfg : DataProviderConfig) (self1 self2 : ResearchEnvironment)
    (stock_code : string) (s : Process) :
  analysis_mapping self1 = analysis_mapping self2 →
  (∀ k, k ∈ (analysis_mapping self1).*1 → agents self1 !! k = agents self2 !! k) →
  (run w cfg self1 stock_code s).1.1 = (run w cfg self2 stock_code s).1.1.
Proof.
  intros Hmap Hagree. unfold run, bind. rewrite <- Hmap.
  destruct (execute w cfg stock_code s) as [bir s1].
  set (reg1 := if truthy (error bir) then agents self1 else _).
  set (reg2 := if truthy (error bir) then agents self2 else _).
  assert (Hreg : ∀ k, k ∈ (analysis_mapping self1).*1 → reg1 !! k = reg2 !! k).
  { subst reg1 reg2. destruct (truthy (error bir)); [done|].
    by apply seed_context_agree. }
  rewrite (dispatch_agree _ reg1 reg2) by done.
  by destruct (dict_is_empty _).
Qed.

Lemma run_ignores_unmapped_specialists_witness :
  (run offline (bare "auto") only_risk "600519" fresh_process).1.1
  = (run offline (bare "auto")
       (environment {[ "risk_control_agent" := steady "low risk";
                       "macro_agent" := faulty "never asked" ]})
       "600519" fresh_process).1.1.
Proof.
  apply (run_ignores_unmapped_specialists offline (bare "auto") only_risk
           (environment {[ "risk_control_agent" := steady "low risk";
                           "macro_agent" := faulty "never asked" ]})).
  - reflexivity.
  - intros k Hk.
    repeat (apply elem_of_cons in Hk as [->|Hk]; [vm_compute; reflexivity|]).
    by apply elem_of_nil in Hk.
Defined.

Lemma run_degenerate_or_stored_witness :
  (run offline (bare "auto") (environment {[ "macro_agent" := steady "rates" ]})
     "600519" fresh_process).1.1
  = {[ "error" := PyStr "No specialist agents completed successfully";
       "stock_code" := PyStr "600519" ]}
  ∧ results (run offline (bare "auto") only_risk "600519" fresh_process).1.2
    = (run offline (bare "auto") only_risk "600519" fresh_process).1.1.
Proof.
  split.
  - apply (proj1 (run_degenerate_or_stored offline (bare "auto")
                    (environment {[ "macro_agent" := steady "rates" ]})
                    "600519" fresh_process)).
    intros k Hk.
    repeat (apply elem_of_cons in Hk as [->|Hk]; [vm_compute; reflexivity|]).
    by apply elem_of_nil in Hk.
  - apply (proj2 (run_degenerate_or_stored offline (bare "auto") only_risk
                    "600519" fresh_process)).
    exists "risk_control_agent". split; [|vm_compute; eauto].
    right. left.
Defined.

Lemma collect_lookup_outside mapping task_results k :
  k ∉ mapping.*2 → collect mapping task_results !! k = None.
Proof.
  intros Hk. apply not_elem_of_dom. rewrite collect_dom.
  intros Hin. apply Hk. apply elem_of_list_to_set in Hin.
  apply list_elem_of_fmap in Hin as (item & -> & Hin).
  apply list_elem_of_fmap. exists item. split; [done|].
  by apply (subseteq_take (length task_results) mapping).
Qed.

(** X19. When a specialist of the mapping is registered and no result key
    is basic_info, the returned mapping has the entry basic_info exactly
    when the basic-info fetch gave no error, and the entry is then the whole
    output of the fetch, trading day included. *)
Theorem run_basic_info_entry
    (w : World) (cfg : DataProviderConfig) (self : ResearchEnvironment)
    (stock_code : string) (s : Process) :
  "basic_info" ∉ (analysis_mapping self).*2 →
  (∃ k, k ∈ (analysis_mapping self).*1 ∧ is_Some (agents self !! k)) →
  let basic_info_result := (execute w cfg stock_code s).1 in
  (run w cfg self stock_code s).1.1 !! "basic_info"
  = if truthy (error basic_info_result) then None
    else Some (PyDict (output basic_info_result)).
Proof.
  intros Hkey (k & Hk & Hreg). unfold run, bind.
  destruct (execute w cfg stock_code s) as [bir s1]. cbn [fst].
  set (registry := if truthy (error bir) then agents self else _).
  rewrite collect_not_empty.
  - unfold ret. cbn [fst]. rewrite lookup_insert_ne by done.
    destruct (truthy (error bir)); simpl.
    + by apply collect_lookup_outside.
    + apply lookup_insert_eq.
  - intros Hm. rewrite Hm in Hk. by apply elem_of_nil in Hk.
  - unfold gather. intros Hnil. apply map_eq_nil in Hnil.
    apply (dispatch_some _ registry stock_code k Hk); [|done].
    subst registry. destruct (truthy (error bir)); [done|].
    by apply seed_context_is_Some.
Qed.

Lemma run_basic_info_entry_witness :
  (run listed (bare "auto") only_risk "600519" fresh_process).1.1 !! "basic_info"
  = if truthy (error (execute listed (bare "auto") "600519" fresh_process).1) then None
    else Some (PyDict (output (execute listed (bare "auto") "600519" fresh_process).1)).
Proof.
  apply (run_basic_info_entry listed (bare "auto") only_risk "600519" fresh_process).
  - intros Hin.
    repeat (apply elem_of_cons in Hin as [Hin|Hin]; [discriminate Hin|]).
    by apply elem_of_nil in Hin.
  - exists "risk_control_agent". split; [|vm_compute; eauto].
    right. left.
Defined.



Example three_specialists_run :
  (run listed (bare "auto")
     {| analysis_mapping := [ ("risk_control_agent", "risk");
                              ("sentiment_agent", "mood");
                              ("hot_money_agent", "flow") ];
        agents := list_to_map [ ("hot_money_agent", steady "inflow");
                                ("risk_control_agent", faulty "timeout");
                                ("sentiment_agent", steady "calm") ];
        results := ∅ |} "600519" fresh_process).1.1
  = list_to_map
      [ ("risk", PyStr "Error: timeout");
        ("mood", PyStr "calm");
        ("flow", PyStr "inflow");
        ("basic_info",
         PyDict {[ "current_trading_day" := PyStr "2025-01-02";
                   "basic_info" := PyDict {[ "name" := PyStr "Kweichow Moutai";
                                             "industry" := PyStr "liquor" ]} ]});
        ("stock_code", PyStr "600519") ].
Proof. vm_compute. reflexivity. Qed.

End OrchestratorMore.

(** ** More on the admission gate *)

Section GateMore.
Import Gate.







Lemma fire_length ev st st' :
  fire ev st = Some st' → length (tasks st') = length (tasks st).
Proof.
  destruct ev as [i|i]; simpl.
  - destruct (tasks st !! i) as [[]|]; try discriminate.
    destruct (0 <? value st)%nat; [|discriminate].
    intros [= <-]. simpl. apply length_insert.
  - destruct (tasks st !! i) as [[]|]; try discriminate.
    intros [= <-]. simpl. apply length_insert.
Qed.

Lemma play_length schedule st st' :
  play schedule st = Some st' → length (tasks st') = length (tasks st).
Proof.
  revert st. induction schedule as [|ev schedule IH]; intros st; simpl.
  - by intros [= <-].
  - destruct (fire ev st) as [st1|] eqn:Hfire; [|discriminate].
    intros Hplay. rewrite (IH _ Hplay). by eapply fire_length.
Qed.

Lemma play_app a b st :
  play (a ++ b) st = play a st ≫= play b.
Proof.
  revert st. induction a as [|ev a IH]; intros st; simpl; [done|].
  destruct (fire ev st); [apply IH | done].
Qed.





Lemma fire_enter i st st' :
  fire (Enter i) st = Some st' →
  tasks st !! i = Some Waiting ∧ tasks st' = <[i := Running]> (tasks st).
Proof.
  simpl. destruct (tasks st !! i) as [[]|]; try discriminate.
  destruct (0 <? value st)%nat; [|discriminate]. by intros [= <-].
Qed.

Lemma fire_exit i st st' :
  fire (Exit i) st = Some st' →
  tasks st !! i = Some Running ∧ tasks st' = <[i := Settled]> (tasks st).
Proof.
  simpl. destruct (tasks st !! i) as [[]|]; try discriminate. by intros [= <-].
Qed.

(** X23. In a run, a task enters its specialist's [run] at most once and
    leaves it at most once, and only after it entered: no event occurs twice
    in a schedule, the tasks that entered are those that are running or
    settled, and the tasks that left are those that are settled. *)
Theorem gate_admits_each_task_once (n : nat) (schedule : list event) (st : state) :
  play schedule (start n) = Some st →
  NoDup schedule
  ∧ ∀ i,
      (Enter i ∈ schedule
       ↔ tasks st !! i = Some Running ∨ tasks st !! i = Some Settled)
      ∧ (Exit i ∈ schedule ↔ tasks st !! i = Some Settled).
Proof.
  revert st. induction schedule as [|ev schedule IH] using rev_ind; intros st Hplay.
  - injection Hplay as <-. split; [constructor|]. intros i. simpl.
    assert (replicate n Waiting !! i = Some Waiting ∨ replicate n Waiting !! i = None) as Hi.
    { destruct (replicate n Waiting !! i) as [p|] eqn:Hp; [|by right].
      apply lookup_replicate in Hp as [-> _]. by left. }
    split; (split; [by intros ?%elem_of_nil|]); destruct Hi as [-> | ->]; naive_solver.
  - rewrite play_app in Hplay.
    destruct (play schedule (start n)) as [st0|] eqn:Hplay0; [|done].
    simpl in Hplay. destruct (fire ev st0) as [st1|] eqn:Hfire; [|done].
    injection Hplay as <-. destruct (IH st0 eq_refl) as [Hnd Hphases].
    destruct ev as [i|i].
    + apply fire_enter in Hfire as [Hi ->].
      assert (i < length (tasks st0))%nat as Hlt by (by eapply lookup_lt_Some).
      split.
      * apply NoDup_app. split; [done|]. split; [|apply NoDup_singleton].
        intros ev Hev ->%list_elem_of_singleton.
        apply Hphases in Hev. rewrite Hi in Hev. naive_solver.
      * intros j. rewrite !elem_of_app, !list_elem_of_singleton.
        destruct (decide (i = j)) as [<-|Hne].
        -- rewrite list_lookup_insert_eq by done.
           destruct (Hphases i) as [_ Hexit]. rewrite Hi in Hexit. naive_solver.
        -- rewrite list_lookup_insert_ne by done.
           destruct (Hphases j) as [Henter Hexit]. naive_solver.
    + apply fire_exit in Hfire as [Hi ->].
      assert (i < length (tasks st0))%nat as Hlt by (by eapply lookup_lt_Some).
      split.
      * apply NoDup_app. split; [done|]. split; [|apply NoDup_singleton].
        intros ev Hev ->%list_elem_of_singleton.
        apply Hphases in Hev. rewrite Hi in Hev. naive_solver.
      * intros j. rewrite !elem_of_app, !list_elem_of_singleton.
        destruct (decide (i = j)) as [<-|Hne].
        -- rewrite list_lookup_insert_eq by done.
           destruct (Hphases i) as [Henter _]. rewrite Hi in Henter. naive_solver.
        -- rewrite list_lookup_insert_ne by done.
           destruct (Hphases j) as [Henter Hexit]. naive_solver.
Qed.

Lemma gate_admits_each_task_once_witness :
  NoDup [Enter 0; Enter 1; Enter 2; Exit 1; Enter 4]
  ∧ ∀ i,
      (Enter i ∈ [Enter 0; Enter 1; Enter 2; Exit 1; Enter 4]
       ↔ [Running; Settled; Running; Waiting; Running; Waiting] !! i = Some Running
         ∨ [Running; Settled; Running; Waiting; Running; Waiting] !! i = Some Settled)
      ∧ (Exit i ∈ [Enter 0; Enter 1; Enter 2; Exit 1; Enter 4]
         ↔ [Running; Settled; Running; Waiting; Running; Waiting] !! i = Some Settled).
Proof.
  apply (gate_admits_each_task_once 6 [Enter 0; Enter 1; Enter 2; Exit 1; Enter 4]
           {| value := 0;
              tasks := [Running; Settled; Running; Waiting; Running; Waiting] |}).
  reflexivity.
Defined.

Example no_second_entry :
  play [Enter 0; Exit 0; Enter 0] (start 6) = None.
Proof. reflexivity. Qed.

End GateMore.

(** ** The gate and the semaphore of the library *)

Section SemaphoreRefinement.
Import Semaphore.

Lemma tally_insert f (l : list stage) (i : nat) a b :
  l !! i = Some a → (tally f (<[i := b]> l) + f a = tally f l + f b)%nat.
Proof.
  unfold tally. revert i. induction l as [|s l IH]; intros i Hi; [done|].
  destruct i as [|i]; simpl in *.
  - injection Hi as ->. lia.
  - specialize (IH i Hi). lia.
Qed.

Lemma running_phases l : Gate.running (phase_of <$> l) = tally is_inside l.
Proof.
  unfold tally. induction l as [|s l IH]; [done|].
  rewrite fmap_cons. destruct s; simpl; by rewrite <- IH.
Qed.

Lemma first_blocked_Some (l : list stage) waiters i :
  first_blocked l waiters = Some i → l !! i = Some Blocked.
Proof.
  induction waiters as [|j waiters IH]; simpl; [done|].
  destruct (l !! j) as [[]|] eqn:Hj; try exact IH. by intros [= <-].
Qed.

Lemma phases_insert_waiting (l : list stage) (i : nat) a b :
  l !! i = Some a → phase_of a = phase_of b →
  phase_of <$> <[i := b]> l = phase_of <$> l.
Proof.
  intros Hi Hab. rewrite list_fmap_insert, <- Hab.
  apply list_insert_id. by rewrite list_lookup_fmap, Hi.
Qed.

(** Waking the next waiter hands it a slot the counter had: the gate sees
    no change. *)
Lemma wake_up_next_gate st :
  (0 < _value st)%nat → gate_of (_wake_up_next st) = gate_of st.
Proof.
  intros Hpos. unfold _wake_up_next.
  destruct (first_blocked (stages st) (_waiters st)) as [i|] eqn:Hfirst; [|done].
  apply first_blocked_Some in Hfirst.
  unfold gate_of, woken. simpl.
  rewrite (phases_insert_waiting _ _ Blocked Woken) by done.
  pose proof (tally_insert is_woken _ i Blocked Woken Hfirst) as Ht. simpl in Ht.
  f_equal. lia.
Qed.

Lemma locked_false st :
  locked st = false → (0 < _value st)%nat ∧ _waiters st = [].
Proof.
  unfold locked. destruct (Nat.eqb_spec (_value st) 0); [done|].
  destruct (_waiters st); [|done]. intros _. split; [lia|done].
Qed.

Lemma woken_positive (l : list stage) (i : nat) : l !! i = Some Woken → (0 < tally is_woken l)%nat.
Proof.
  unfold tally. revert i. induction l as [|s l IH]; intros i Hi; [done|].
  destruct i as [|i]; simpl in *.
  - injection Hi as ->. simpl. lia.
  - specialize (IH i Hi). lia.
Qed.

(** Every step of the semaphore is a step of the gate, or none. *)
Lemma fire_simulates ev st st' :
  fire ev st = Some st' →
  Gate.play (gate_event st ev) (gate_of st) = Some (gate_of st').
Proof.
  destruct ev as [i|i|i]; simpl.
  - destruct (stages st !! i) as [[]|] eqn:Hi; try discriminate.
    destruct (locked st) eqn:Hlocked; intros [= <-]; simpl.
    + f_equal. unfold gate_of, woken. simpl.
      rewrite (phases_insert_waiting _ _ Created Blocked) by done.
      pose proof (tally_insert is_woken _ i Created Blocked Hi) as Ht. simpl in Ht.
      f_equal. lia.
    + apply locked_false in Hlocked as [Hpos _].
      rewrite list_lookup_fmap, Hi. simpl.
      destruct (Nat.ltb_spec 0 (_value st + woken st)); [|lia].
      f_equal. unfold gate_of, woken. simpl. rewrite list_fmap_insert. simpl.
      pose proof (tally_insert is_woken _ i Created Inside Hi) as Ht. simpl in Ht.
      f_equal. lia.
  - destruct (stages st !! i) as [[]|] eqn:Hi; try discriminate.
    intros [= <-].
    pose proof (woken_positive _ _ Hi) as Hwoken.
    pose proof (tally_insert is_woken _ i Woken Inside Hi) as Ht. simpl in Ht.
    simpl. rewrite list_lookup_fmap, Hi. simpl.
    destruct (Nat.ltb_spec 0 (_value st + woken st)); [|unfold woken in *; lia].
    f_equal.
    assert (gate_of {| _value := _value st;
                       _waiters := remove_first i (_waiters st);
                       stages := <[i := Inside]> (stages st) |}
            = {| Gate.value := _value st + woken st - 1;
                 Gate.tasks := <[i := Gate.Running]> (phase_of <$> stages st) |}) as Hgate.
    { unfold gate_of, woken. simpl. rewrite list_fmap_insert. simpl.
      f_equal. unfold woken in *. lia. }
    destruct (Nat.ltb_spec 0 (_value st)) as [Hpos|Hzero].
    + rewrite wake_up_next_gate by done. by rewrite Hgate.
    + by rewrite Hgate.
  - destruct (stages st !! i) as [[]|] eqn:Hi; try discriminate.
    intros [= <-].
    pose proof (tally_insert is_woken _ i Inside Finished Hi) as Ht. simpl in Ht.
    simpl. rewrite list_lookup_fmap, Hi. simpl. f_equal.
    rewrite wake_up_next_gate by (simpl; lia).
    unfold gate_of, woken. simpl. rewrite list_fmap_insert. simpl.
    f_equal. lia.
Qed.

Lemma play_simulates schedule st st' :
  Semaphore.play schedule st = Some st' →
  Gate.play (gate_schedule schedule st) (gate_of st) = Some (gate_of st').
Proof.
  revert st. induction schedule as [|ev schedule IH]; intros st; simpl.
  - by intros [= <-].
  - destruct (fire ev st) as [st1|] eqn:Hfire; [|discriminate].
    intros Hplay. rewrite play_app, (fire_simulates _ _ _ Hfire). simpl.
    by apply IH.
Qed.

Lemma gate_of_start n : gate_of (Semaphore.start n) = Gate.start n.
Proof.
  unfold gate_of, Semaphore.start, Gate.start, woken. simpl.
  rewrite fmap_replicate. simpl. f_equal.
  assert (tally is_woken (replicate n Created) = 0) as ->; [|unfold Gate.capacity; lia].
  induction n as [|n IH]; [done | exact IH].
Qed.

(** X22. The semaphore of the library, with its counter and its queue: in
    every state a run can be in, the tasks inside their specialist's [run],
    the waiting tasks a release has handed a slot to, and the counter add up
    to three, with one stage per dispatched task: no slot is lost when a
    specialist raises, none is given back twice.  And what the run did is a
    schedule of the gate, whose free slots are the counter and the slots
    handed over. *)
Theorem semaphore_slots_add_up
    (n : nat) (schedule : list Semaphore.event) (st : Semaphore.state) :
  Semaphore.play schedule (Semaphore.start n) = Some st →
  (inside st + woken st + _value st = 3)%nat
  ∧ length (stages st) = n
  ∧ Gate.play (gate_schedule schedule (Semaphore.start n)) (Gate.start n)
    = Some (gate_of st)
  ∧ Gate.live (gate_of st) = inside st.
Proof.
  intros Hplay.
  pose proof (play_simulates _ _ _ Hplay) as Hgate. rewrite gate_of_start in Hgate.
  assert (Gate.live (gate_of st) = inside st) as Hlive.
  { unfold Gate.live, inside. simpl. apply running_phases. }
  pose proof (play_balanced _ _ _ (start_balanced n) Hgate) as Hbal.
  unfold balanced, Gate.capacity in Hbal. rewrite Hlive in Hbal. simpl in Hbal.
  repeat split; [lia| |exact Hgate|exact Hlive].
  pose proof (play_length _ _ _ Hgate) as Hlen. simpl in Hlen.
  by rewrite length_fmap, length_replicate in Hlen.
Qed.

Lemma semaphore_slots_add_up_witness :
  let st := {| _value := 0; _waiters := [3; 4];
               stages := [Inside; Finished; Inside; Woken; Blocked; Created] |} in
  (inside st + woken st + _value st = 3)%nat
  ∧ length (stages st) = 6
  ∧ Gate.play
      (gate_schedule [Start 0; Start 1; Start 2; Start 3; Start 4; Leave 1]
         (Semaphore.start 6))
      (Gate.start 6)
    = Some (gate_of st)
  ∧ Gate.live (gate_of st) = inside st.
Proof.
  apply (semaphore_slots_add_up 6 [Start 0; Start 1; Start 2; Start 3; Start 4; Leave 1]).
  reflexivity.
Defined.

(** A release with a task waiting: the slot goes to the waiter at once, the
    counter stays at zero and two tasks are inside until the waiter goes
    on. *)
Example release_hands_the_slot_over :
  Semaphore.play [Start 0; Start 1; Start 2; Start 3; Leave 1] (Semaphore.start 6)
  = Some {| _value := 0; _waiters := [3];
            stages := [Inside; Finished; Inside; Woken; Created; Created] |}
  ∧ gate_schedule [Start 0; Start 1; Start 2; Start 3; Leave 1; Resume 3]
      (Semaphore.start 6)
    = [Gate.Enter 0; Gate.Enter 1; Gate.Enter 2; Gate.Exit 1; Gate.Enter 3].
Proof. split; reflexivity. Qed.

(** A task that starts while another is queued waits behind it, also when
    the counter is not zero; the task that goes on wakes it. *)
Example late_starter_queues :
  Semaphore.play
    [Start 0; Start 1; Start 2; Start 3; Leave 0; Leave 1; Start 4] (Semaphore.start 6)
  = Some {| _value := 1; _waiters := [3; 4];
            stages := [Finished; Finished; Inside; Woken; Blocked; Created] |}
  ∧ Semaphore.play
      [Start 0; Start 1; Start 2; Start 3; Leave 0; Leave 1; Start 4; Resume 3]
      (Semaphore.start 6)
    = Some {| _value := 0; _waiters := [4];
              stages := [Finished; Finished; Inside; Inside; Woken; Created] |}.
Proof. split; reflexivity. Qed.

End SemaphoreRefinement.

